(** * check_fr24feed: verdict, output and exit code of the feeder probe

    A shallow embedding of [check_fr24feed.py].  The script is one linear
    routine: parse the command line, fetch [monitor.json], run three
    extraction steps on the decoded document, compare the age of the last
    upload with two thresholds, print one message and leave with an exit
    code.  The embedding keeps that shape: the Python builtins the script
    calls come first (strings, [int()], subscripting, [datetime]), then the
    process effects ([print], [sys.exit]) as a small monad, then the
    script's functions under their own names.

    Strings are [string]: code points 0..255.  What the interpreter
    provides and the script only calls ([repr] of floats, lists and
    dictionaries, the help text of [argparse]) is a section variable. *)

From Stdlib Require Import ZArith String Ascii List Lia.
From stdpp Require Import base option gmap strings pretty.

Set Warnings "-register-all".
Set Default Proof Using "Type".
#[local] Open Scope Z_scope.

(** ** Python strings *)

Module PyStr.

(** The line feed and the double quote, which a literal cannot hold. *)
Definition nl : string := String "010"%char EmptyString.
Definition dq : string := String "034"%char EmptyString.

(** [str.isspace] on the code points below 256:
    TAB LF VT FF CR, FS GS RS US, SPACE, NEL and NBSP. *)
Definition is_space (a : ascii) : bool :=
  let n := Z.of_nat (nat_of_ascii a) in
  ((9 <=? n) && (n <=? 13)) || ((28 <=? n) && (n <=? 32))
  || (n =? 133) || (n =? 160).

Fixpoint lstrip (s : string) : string :=
  match s with
  | EmptyString => EmptyString
  | String a s' => if is_space a then lstrip s' else s
  end.

Fixpoint rstrip (s : string) : string :=
  match s with
  | EmptyString => EmptyString
  | String a s' =>
      match rstrip s' with
      | EmptyString => if is_space a then EmptyString else String a EmptyString
      | r => String a r
      end
  end.

(** [s.strip()] *)
Definition strip (s : string) : string := rstrip (lstrip s).

(** [sub in s] *)
Definition contains (s sub : string) : Prop :=
  exists pre post : string, s = pre +:+ sub +:+ post.

(** [str(n)] for an [int] *)
Definition str_int (n : Z) : string := pretty n.

End PyStr.

(** ** [int(s)] for a string, base 10 *)

Module PyInt.

(** Blanks that [int()] skips at both ends: the ASCII ones
    (TAB LF VT FF CR SPACE) and, of the others, those that are spaces
    (NEL, NBSP).  FS..US are spaces for [strip] but not for [int]. *)
Definition is_blank (a : ascii) : bool :=
  let n := Z.of_nat (nat_of_ascii a) in
  ((9 <=? n) && (n <=? 13)) || (n =? 32) || (n =? 133) || (n =? 160).

Fixpoint lskip (s : string) : string :=
  match s with
  | EmptyString => EmptyString
  | String a s' => if is_blank a then lskip s' else s
  end.

Fixpoint rskip (s : string) : string :=
  match s with
  | EmptyString => EmptyString
  | String a s' =>
      match rskip s' with
      | EmptyString => if is_blank a then EmptyString else String a EmptyString
      | r => String a r
      end
  end.

Definition digit (a : ascii) : option Z :=
  let n := Z.of_nat (nat_of_ascii a) in
  if (48 <=? n) && (n <=? 57) then Some (n - 48) else None.

(** Digits with single underscores between them; [after_us] tells that
    the previous character was an underscore. *)
Fixpoint digits (acc : Z) (after_us : bool) (s : string) : option Z :=
  match s with
  | EmptyString => if after_us then None else Some acc
  | String a s' =>
      match digit a with
      | Some d => digits (10 * acc + d) false s'
      | None =>
          if Ascii.eqb a "_"%char
          then if after_us then None else digits acc true s'
          else None
      end
  end.

(** An unsigned literal starts with a digit. *)
Definition unsigned (s : string) : option Z :=
  match s with
  | EmptyString => None
  | String a _ => match digit a with Some _ => digits 0 false s | None => None end
  end.

(** [int(s)]: [None] stands for the [ValueError]. *)
Definition of_string (s : string) : option Z :=
  match rskip (lskip s) with
  | String "-"%char r => Z.opp <$> unsigned r
  | String "+"%char r => unsigned r
  | r => unsigned r
  end.

End PyInt.

(** ** Decoded JSON documents *)

(** A Python [float]: not-a-number, an infinity, or the finite value
    [m * 2^e]. *)
Inductive pyfloat : Type :=
  | FNan
  | FInf (negative : bool)
  | FFinite (m e : Z).

(** What [response.json()] can return. *)
Inductive json : Type :=
  | JNull
  | JBool (b : bool)
  | JInt (n : Z)
  | JFloat (f : pyfloat)
  | JStr (s : string)
  | JArr (items : list json)
  | JObj (fields : gmap string json).

(** [data[key]] for a string key.  The script subscripts only inside
    [try: ... except:], which catches whatever is raised and drops it, so
    [None] stands for the exception: [KeyError] for a dictionary without
    the key, [TypeError] for every value that is not a dictionary. *)
Definition py_getitem (data : json) (key : string) : option json :=
  match data with
  | JObj fields => fields !! key
  | _ => None
  end.

(** [int(f)] truncates towards zero; NaN and the infinities raise. *)
Definition float_trunc (f : pyfloat) : option Z :=
  match f with
  | FNan | FInf _ => None
  | FFinite m e => if 0 <=? e then Some (m * 2 ^ e) else Some (Z.quot m (2 ^ (- e)))
  end.

(** [int(v)], used under the same kind of [try]: [None] stands for the
    [TypeError] ([None], lists, dictionaries), the [ValueError] (text that
    is no integer literal, NaN) or the [OverflowError] (infinities). *)
Definition py_int (v : json) : option Z :=
  match v with
  | JNull => None
  | JBool b => Some (if b then 1 else 0)
  | JInt n => Some n
  | JFloat f => float_trunc f
  | JStr s => PyInt.of_string s
  | JArr _ => None
  | JObj _ => None
  end.

(** An exception as an [except Exception as ex] handler reads it:
    [type(ex).__name__] and [repr(ex.args)]. *)
Record exn : Type := Exn { exn_name : string; exn_args : string }.

(** [v + s] for a string [s]: concatenation when [v] is a string, a
    [TypeError] otherwise. *)
Definition unsupported_operand (left : string) : exn :=
  Exn "TypeError"
      ("(" +:+ PyStr.dq +:+ "unsupported operand type(s) for +: '" +:+ left
           +:+ "' and 'str'" +:+ PyStr.dq +:+ ",)").

Definition py_add_str (v : json) (s : string) : exn + string :=
  match v with
  | JStr a => inr (a +:+ s)
  | JNull => inl (unsupported_operand "NoneType")
  | JBool _ => inl (unsupported_operand "bool")
  | JInt _ => inl (unsupported_operand "int")
  | JFloat _ => inl (unsupported_operand "float")
  | JObj _ => inl (unsupported_operand "dict")
  | JArr _ =>
      inl (Exn "TypeError"
               ("('can only concatenate list (not " +:+ PyStr.dq +:+ "str"
                  +:+ PyStr.dq +:+ ") to list',)"))
  end.

(** ** [datetime] *)

Module Datetime.

(** A naive [datetime], kept as its distance from 1970-01-01 00:00:00 in
    microseconds.  The type holds the years 1 to 9999. *)
Record datetime : Type := Instant { since_epoch_us : Z }.

(** 0001-01-01 00:00:00 and 9999-12-31 23:59:59 as timestamps. *)
Definition MIN_TIMESTAMP : Z := -62135596800.
Definition MAX_TIMESTAMP : Z := 253402300799.

(** [datetime.utcfromtimestamp(t)] for an [int]; [None] stands for the
    [ValueError] (year out of range) or [OverflowError] (beyond the
    platform's [time_t]) of a timestamp outside the type. *)
Definition utcfromtimestamp (t : Z) : option datetime :=
  if (MIN_TIMESTAMP <=? t) && (t <=? MAX_TIMESTAMP)
  then Some (Instant (t * 1000000))
  else None.

(** A [timedelta] is normalised: [0 <= seconds < 86400],
    [0 <= microseconds < 1000000], the sign is in [days]. *)
Record timedelta : Type :=
  Delta { days : Z; seconds : Z; microseconds : Z }.

(** [timedelta(days=d, seconds=s, microseconds=us)] *)
Definition mk_timedelta (d s us : Z) : timedelta :=
  let total := (d * 86400 + s) * 1000000 + us in
  {| days := total / 86400000000;
     seconds := (total mod 86400000000) / 1000000;
     microseconds := total mod 1000000 |}.

(** [a - b] *)
Definition sub (a b : datetime) : timedelta :=
  mk_timedelta 0 0 (since_epoch_us a - since_epoch_us b).

(** [-d] and [abs(d)] *)
Definition neg (d : timedelta) : timedelta :=
  mk_timedelta (- days d) (- seconds d) (- microseconds d).

Definition abs (d : timedelta) : timedelta :=
  if days d <? 0 then neg d else d.

(** The civil date of a day count from 1970-01-01. *)
Definition civil_from_days (day : Z) : Z * Z * Z :=
  let z := day + 719468 in
  let era := z / 146097 in
  let doe := z - era * 146097 in
  let yoe := (doe - doe / 1460 + doe / 36524 - doe / 146096) / 365 in
  let doy := doe - (365 * yoe + yoe / 4 - yoe / 100) in
  let mp := (5 * doy + 2) / 153 in
  let d := doy - (153 * mp + 2) / 5 + 1 in
  let m := if mp <? 10 then mp + 3 else mp - 9 in
  let y := yoe + era * 400 + (if m <=? 2 then 1 else 0) in
  (y, m, d).

Definition two_digits (n : Z) : string :=
  if n <? 10 then "0" +:+ pretty n else pretty n.

(** [dt.strftime("%Y-%m-%d %H:%M:%S")].  The year is printed as the C
    library on Linux prints [%Y], without padding below 1000. *)
Definition strftime (dt : datetime) : string :=
  let secs := since_epoch_us dt / 1000000 in
  let '(y, m, d) := civil_from_days (secs / 86400) in
  let sod := secs mod 86400 in
  pretty y +:+ "-" +:+ two_digits m +:+ "-" +:+ two_digits d +:+ " "
    +:+ two_digits (sod / 3600) +:+ ":" +:+ two_digits (sod mod 3600 / 60)
    +:+ ":" +:+ two_digits (sod mod 60).

End Datetime.

(** ** The process: standard output and [sys.exit] *)

(** A computation either returns a value or leaves through [SystemExit];
    both carry what was written to standard output so far. *)
Inductive run (A : Type) : Type :=
  | Returns (out : string) (a : A)
  | Exits (out : string) (code : Z).

Arguments Returns {A} out a.
Arguments Exits {A} out code.

Definition proc (A : Type) : Type := string -> run A.

#[global] Instance proc_ret : MRet proc := fun A a out => Returns out a.

#[global] Instance proc_bind : MBind proc := fun A B k m out =>
  match m out with
  | Returns out' a => k a out'
  | Exits out' code => Exits out' code
  end.

Definition write (s : string) : proc unit := fun out => Returns (out +:+ s) tt.

(** [print(s)] writes [s] and ends the line. *)
Definition line (s : string) : string := s +:+ PyStr.nl.

Definition print (s : string) : proc unit := write (line s).

(** [sys.exit(code)] *)
Definition sys_exit {A : Type} (code : Z) : proc A := fun out => Exits out code.

(** [try: body / except SystemExit: handler] *)
Definition try_except_SystemExit {A : Type} (body handler : proc A) : proc A :=
  fun out =>
    match body out with
    | Returns out' a => Returns out' a
    | Exits out' _ => handler out'
    end.

(** What the operating system sees of one invocation. *)
Record outcome : Type := Outcome { stdout : string; exit_code : Z }.

(** Running a script body from an empty output; a body that returns ends
    the interpreter with status 0. *)
Definition execute {A : Type} (body : proc A) : outcome :=
  match body EmptyString with
  | Returns out _ => Outcome out 0
  | Exits out code => Outcome out code
  end.

(** ** The script *)

Definition __author__ : string := "Andreas Bucher".
Definition __version__ : string := "2022031701".

Definition DEFAULT_PORT : string := "8754".
Definition DEFAULT_WARN : Z := 600.
Definition DEFAULT_CRIT : Z := 3600.

Definition STATE_OK : Z := 0.
Definition STATE_WARN : Z := 1.
Definition STATE_CRIT : Z := 2.
Definition STATE_UNKNOWN : Z := 3.

(** A [(True, value)] or [(False, reason)] pair, as the check functions
    return it and [coe] takes it apart. *)
Inductive result (A : Type) : Type :=
  | Success (value : A)
  | Failure (reason : string).

Arguments Success {A} value.
Arguments Failure {A} reason.

(** The three counters of [get_metrics] and the three entries of
    [get_status]: dictionaries with fixed keys. *)
Record metrics : Type := Metrics {
  adsb_tracked : json;
  non_adsb_tracked : json;
  sum_tracked : json
}.

Record status : Type := Status {
  feed_status : json;
  last_rx_connect_status : json;
  feed_last_connected_time : string
}.

(** The namespace [parse_args] returns. *)
Record Namespace : Type := Args {
  ALWAYS_OK : bool;
  HOST_IP : string;
  HOST_PORT : string;
  CRIT : Z;
  WARN : Z
}.

(** The command line as [argparse] has split it: an option of the parser
    with the argument string attached to it, if any ([--host h],
    [--host=h], [-w7]), or a token that is none of the parser's options.
    Matching tokens with option strings is the library's and is not
    repeated here. *)
Inductive option_id : Type :=
  | OptHelp | OptVersion | OptAlwaysOk | OptHost | OptPort | OptCritical | OptWarning.

Inductive cli_item : Type :=
  | Given (opt : option_id) (arg : option string)
  | Stray (token : string).

#[global] Instance option_id_eq_dec : EqDecision option_id.
Proof. solve_decision. Defined.

(** ** Sample invocations

    The time of the samples is 2022-03-17 12:39:31.25 UTC. *)

Module Sample.

Definition prog : string := "check_fr24feed.py".
Definition help_text : string := "usage: check_fr24feed.py --host HOST_IP".

(** No sample holds a float, a list or a dictionary as a value. *)
Definition repr (_ : json) : string := "".

Definition now : Datetime.datetime := Datetime.Instant (1647520771 * 1000000 + 250000).

(** The monitor's answer with the last upload at timestamp [sent]. *)
Definition fields (sent : json) : gmap string json :=
  list_to_map
    [ ("feed_last_ac_sent_time", sent);
      ("feed_num_ac_adsb_tracked", JInt 5);
      ("feed_num_ac_non_adsb_tracked", JInt 2);
      ("feed_num_ac_tracked", JInt 7);
      ("feed_status", JStr "CONNECTED");
      ("last_rx_connect_status", JStr "CONNECTED");
      ("feed_last_connected_time", JInt 1647520271) ].

(** The last upload was [age] seconds before the sample time. *)
Definition monitor (age : Z) : json := JObj (fields (JInt (1647520771 - age))).

(** A world that answers every GET with [response], and one that
    refuses the connection. *)
Definition serve (response : json) (_ : string) : exn + json := inr response.
Definition refuse (_ : string) : exn + json :=
  inl (Exn "ConnectionError" "('Connection refused',)").

(** [--host 10.0.0.5] *)
Definition host : cli_item := Given OptHost (Some "10.0.0.5").
Definition argv : list cli_item := [host].
Definition args : Namespace := Args false "10.0.0.5" "8754" 3600 600.

(** [--host 10.0.0.5 --always-ok] *)
Definition argv_always_ok : list cli_item := [host; Given OptAlwaysOk None].
Definition args_always_ok : Namespace := Args true "10.0.0.5" "8754" 3600 600.

(** [--host 10.0.0.5 -w 700 -c 600]: the warning threshold above the
    critical one. *)
Definition argv_crossed : list cli_item :=
  [host; Given OptWarning (Some "700"); Given OptCritical (Some "600")].
Definition args_crossed : Namespace := Args false "10.0.0.5" "8754" 600 700.

(** [--host 10.0.0.9 --port 9000 -c 100 --host 10.0.0.5 -w 50 --always-ok
    -c 200] *)
Definition argv_repeated : list cli_item :=
  [Given OptHost (Some "10.0.0.9"); Given OptPort (Some "9000");
   Given OptCritical (Some "100"); host; Given OptWarning (Some "50");
   Given OptAlwaysOk None; Given OptCritical (Some "200")].
Definition args_repeated : Namespace := Args true "10.0.0.5" "9000" 200 50.


(** A world that answers at the monitor's address and nowhere else. *)
Definition serve_at_monitor (response : json) (path : string) : exn + json :=
  if String.eqb path "http://10.0.0.5:8754/monitor.json"
  then inr response
  else inl (Exn "ConnectionError" "('No route to host',)").

(** The monitor's answer with a number where the feed status should be. *)
Definition numeric_status : json :=
  JObj (<["feed_status" := JInt 1]> (fields (JInt (1647520771 - 100)))).

(** The monitor's answer with text in the counters. *)
Definition worded_counters : json :=
  JObj (<["feed_num_ac_adsb_tracked" := JStr "five"]>
          (<["feed_num_ac_non_adsb_tracked" := JStr "two"]>
             (<["feed_num_ac_tracked" := JStr "seven"]> (fields (JInt 1647520671))))).

(** 10000-01-01 00:00:00, one second past what [datetime] holds. *)
Definition year_10000 : Z := 253402300800.

(** An answer that only has the sum of the counters. *)
Definition only_sum : json := JObj {["feed_num_ac_tracked" := JInt 7]}.

(** What the steps extract from [monitor age]. *)
Definition counters : metrics := Metrics (JInt 5) (JInt 2) (JInt 7).
Definition connection : status :=
  Status (JStr "CONNECTED") (JStr "CONNECTED") "2022-03-17 12:31:11".

End Sample.

Section Script.

(** [repr(v)] of a float, a list or a dictionary. *)
Variable repr : json -> string.

(** [sys.argv[0]] without its directory, and the help [argparse] formats
    for [-h]. *)
Variable prog : string.
Variable help_text : string.

(** ['{}'.format(v)] *)
Definition py_format (v : json) : string :=
  match v with
  | JNull => "None"
  | JBool true => "True"
  | JBool false => "False"
  | JInt n => PyStr.str_int n
  | JStr s => s
  | JFloat _ | JArr _ | JObj _ => repr v
  end.

Definition get_perfdata (label : string) (value : json) (uom : option string)
    (warn crit min max : option Z) : string :=
  let msg := "'" +:+ label +:+ "'=" +:+ py_format value in
  let msg := match uom with Some u => msg +:+ u | None => msg end in
  let msg := msg +:+ ";" in
  let msg := match warn with Some w => msg +:+ PyStr.str_int w | None => msg end in
  let msg := msg +:+ ";" in
  let msg := match crit with Some c => msg +:+ PyStr.str_int c | None => msg end in
  let msg := msg +:+ ";" in
  let msg := match min with Some m => msg +:+ PyStr.str_int m | None => msg end in
  let msg := msg +:+ ";" in
  let msg := match max with Some m => msg +:+ PyStr.str_int m | None => msg end in
  let msg := msg +:+ " " in
  msg.

(** Over and out.  [if perfdata:] holds for a non-empty string. *)
Definition oao {A : Type} (msg : string) (state : Z) (perfdata : string)
    (always_ok : bool) : proc A :=
  (if negb (String.eqb perfdata "")
   then print (PyStr.strip msg +:+ "|" +:+ PyStr.strip perfdata)
   else print (PyStr.strip msg));;
  if always_ok then sys_exit 0 else sys_exit state.

(** Continue or exit. *)
Definition coe {A : Type} (r : result A) (state : Z) : proc A :=
  match r with
  | Success value => mret value
  | Failure reason => print reason;; sys_exit state
  end.

(** [parser.error]: usage and message go to standard error, status 2. *)
Definition parser_error {A : Type} : proc A := sys_exit 2.

(** The options of [parse_args] applied in the order given.  [host] is
    the value of [--host] so far, [strays] tells that a token was left
    over. *)
Fixpoint take_actions (items : list cli_item) (ns : Namespace)
    (host : option string) (strays : bool) : proc Namespace :=
  match items with
  | [] =>
      match host with
      | None => parser_error
      | Some h =>
          if strays then parser_error
          else mret (Args (ALWAYS_OK ns) h (HOST_PORT ns) (CRIT ns) (WARN ns))
      end
  | Stray _ :: rest => take_actions rest ns host true
  | Given OptHelp None :: _ => write help_text;; sys_exit 0
  | Given OptVersion None :: _ =>
      write (line (prog +:+ ": v" +:+ __version__ +:+ " by " +:+ __author__));;
      sys_exit 0
  | Given OptAlwaysOk None :: rest =>
      take_actions rest (Args true (HOST_IP ns) (HOST_PORT ns) (CRIT ns) (WARN ns))
                   host strays
  | Given OptHost (Some h) :: rest => take_actions rest ns (Some h) strays
  | Given OptPort (Some p) :: rest =>
      take_actions rest (Args (ALWAYS_OK ns) (HOST_IP ns) p (CRIT ns) (WARN ns))
                   host strays
  | Given OptCritical (Some a) :: rest =>
      match PyInt.of_string a with
      | Some c =>
          take_actions rest (Args (ALWAYS_OK ns) (HOST_IP ns) (HOST_PORT ns) c (WARN ns))
                       host strays
      | None => parser_error
      end
  | Given OptWarning (Some a) :: rest =>
      match PyInt.of_string a with
      | Some w =>
          take_actions rest (Args (ALWAYS_OK ns) (HOST_IP ns) (HOST_PORT ns) (CRIT ns) w)
                       host strays
      | None => parser_error
      end
  | Given (OptHelp | OptVersion | OptAlwaysOk) (Some _) :: _ => parser_error
  | Given (OptHost | OptPort | OptCritical | OptWarning) None :: _ => parser_error
  end.

(** Parse command line arguments using argparse. *)
Definition parse_args (argv : list cli_item) : proc Namespace :=
  take_actions argv (Args false "" DEFAULT_PORT DEFAULT_CRIT DEFAULT_WARN) None false.

(** The GET of [path] and the decoding of its body, as the world answers
    it: an exception of [requests] or of the decoder, or the document. *)
Variable requests_get_json : string -> exn + json.

(** Check FR24 feeder. *)
Definition run_monitor_check (path : string) : result json :=
  match requests_get_json path with
  | inl ex =>
      Failure ("An exception of type " +:+ exn_name ex
                 +:+ " occurred. Arguments:" +:+ PyStr.nl +:+ exn_args ex)
  | inr json_str => Success json_str
  end.

(** Read out seconds since last status update; [now] is the reading of
    [datetime.datetime.utcnow()]. *)
Definition get_sec_last_status (now : Datetime.datetime) (data : json) : result Z :=
  match
    field ← py_getitem data "feed_last_ac_sent_time";
    datetimeunix ← py_int field;
    lastsentTime ← Datetime.utcfromtimestamp datetimeunix;
    Some (Datetime.days (Datetime.abs (Datetime.sub now lastsentTime)) * 24 * 60 * 60
          + Datetime.seconds (Datetime.abs (Datetime.sub now lastsentTime)))
  with
  | Some diffInSecs => Success diffInSecs
  | None => Failure "ValueError: Last Status could not be parsed"
  end.

Definition get_metrics (data : json) : result metrics :=
  match
    adsb ← py_getitem data "feed_num_ac_adsb_tracked";
    non_adsb ← py_getitem data "feed_num_ac_non_adsb_tracked";
    total ← py_getitem data "feed_num_ac_tracked";
    Some (Metrics adsb non_adsb total)
  with
  | Some m => Success m
  | None => Failure "ValueError: Metrics could not be parsed"
  end.

Definition get_status (data : json) : result status :=
  match
    feed ← py_getitem data "feed_status";
    rx ← py_getitem data "last_rx_connect_status";
    field ← py_getitem data "feed_last_connected_time";
    connected ← py_int field;
    dt ← Datetime.utcfromtimestamp connected;
    Some (Status feed rx (Datetime.strftime dt))
  with
  | Some s => Success s
  | None => Failure "ValueError: Status could not be parsed"
  end.

(** The [try] block of [main] that checks the warn and crit thresholds:
    the message and the state it leaves. *)
Definition check_thresholds (diffSecs : Z) (args : Namespace) (st : status)
    (msg : string) : string * Z :=
  let attempt : exn + (string * Z) :=
    if diffSecs >? CRIT args then
      inr (msg +:+ "CRIT threshold reached: " +:+ PyStr.str_int diffSecs, STATE_CRIT)
    else if diffSecs >? WARN args then
      inr (msg +:+ "WARN threshold reached: " +:+ PyStr.str_int diffSecs, STATE_WARN)
    else
      let msg := "Feeder: OK - " +:+ PyStr.str_int diffSecs +:+ "s since last upload" in
      match py_add_str (feed_status st) " since " with
      | inl ex => inl ex
      | inr text =>
          inr (msg +:+ PyStr.nl +:+ "Status: " +:+ text +:+ feed_last_connected_time st,
               STATE_OK)
      end
  in
  match attempt with
  | inr done => done
  | inl ex =>
      ("An exception of type " +:+ exn_name ex +:+ " occurred. Arguments:"
         +:+ PyStr.nl +:+ exn_args ex,
       STATE_UNKNOWN)
  end.

(** The three entries of performance data [main] adds up. *)
Definition main_perfdata (m : metrics) : string :=
  let perfdata := "" in
  let perfdata := perfdata +:+ get_perfdata "adsb_tracked" (adsb_tracked m) None None None (Some 0) None in
  let perfdata := perfdata +:+ get_perfdata "non_adsb_tracked" (non_adsb_tracked m) None None None (Some 0) None in
  let perfdata := perfdata +:+ get_perfdata "sum_tracked" (sum_tracked m) None None None (Some 0) None in
  perfdata.

(** The url [main] builds. *)
Definition monitor_path (args : Namespace) : string :=
  "http://" +:+ HOST_IP args +:+ ":" +:+ HOST_PORT args +:+ "/monitor.json".

(** The main function.  [oao] is called with three arguments, so its
    [always_ok] keeps the default [False]. *)
Definition main (argv : list cli_item) (now : Datetime.datetime) : proc unit :=
  args ← try_except_SystemExit (parse_args argv) (sys_exit STATE_UNKNOWN);
  let msg := "" in
  let path := monitor_path args in
  response ← coe (run_monitor_check path) STATE_UNKNOWN;
  diffSecs ← coe (get_sec_last_status now response) STATE_UNKNOWN;
  metrics ← coe (get_metrics response) STATE_UNKNOWN;
  status ← coe (get_status response) STATE_UNKNOWN;
  let perfdata := main_perfdata metrics in
  let '(msg, state) := check_thresholds diffSecs args status msg in
  oao msg state perfdata false.

(** One invocation of the script. *)
Definition check_fr24feed (argv : list cli_item) (now : Datetime.datetime) : outcome :=
  execute (main argv now).

(** ** Vocabulary of the statements *)

(** Strings without a blank: what [str] of an integer is made of. *)
Fixpoint graphic (s : string) : bool :=
  match s with
  | EmptyString => true
  | String a s' => negb (PyStr.is_space a) && graphic s'
  end.

(** A string [strip] leaves alone at its right end. *)
Definition tight (t : string) : Prop := PyStr.rstrip t = t /\ t <> "".

(** [parse_args] returns [args] (nothing is written on that path). *)
Definition parses (argv : list cli_item) (args : Namespace) : Prop :=
  parse_args argv "" = Returns "" args.

(** The three extraction steps succeed on [response]. *)
Definition extracted (now : Datetime.datetime) (response : json)
    (diffSecs : Z) (m : metrics) (st : status) : Prop :=
  get_sec_last_status now response = Success diffSecs
  /\ get_metrics response = Success m
  /\ get_status response = Success st.

(** The run gets as far as the threshold check. *)
Definition reaches_thresholds (argv : list cli_item) (now : Datetime.datetime)
    (args : Namespace) (diffSecs : Z) (m : metrics) (st : status) : Prop :=
  parses argv args
  /\ exists response : json,
       run_monitor_check (monitor_path args) = Success response
       /\ extracted now response diffSecs m st.

(** An item [parse_args] rejects where it stands: a token that is no
    option, a flag with an argument, an option without its argument, a
    threshold that is no integer. *)
Definition malformed (item : cli_item) : bool :=
  match item with
  | Stray _ => true
  | Given (OptHelp | OptVersion | OptAlwaysOk) (Some _) => true
  | Given (OptHelp | OptVersion | OptAlwaysOk) None => false
  | Given (OptHost | OptPort) None => true
  | Given (OptHost | OptPort) (Some _) => false
  | Given (OptCritical | OptWarning) None => true
  | Given (OptCritical | OptWarning) (Some text) =>
      match PyInt.of_string text with Some _ => false | None => true end
  end.

(** [--host] is given with a value somewhere on the command line. *)
Definition gives_host (item : cli_item) : bool :=
  match item with
  | Given OptHost (Some _) => true
  | _ => false
  end.

(** One entry of performance data with a floor of 0 and no other bound. *)
Definition perf_entry (label : string) (value : json) : string :=
  "'" +:+ label +:+ "'=" +:+ py_format value +:+ ";;;0; ".

(** The argument of the last occurrence of [opt] that carries one. *)
Fixpoint last_arg (opt : option_id) (argv : list cli_item) : option string :=
  match argv with
  | [] => None
  | item :: rest =>
      match last_arg opt rest, item with
      | Some a, _ => Some a
      | None, Given o (Some a) => if decide (o = opt) then Some a else None
      | None, _ => None
      end
  end.

(** An item [parse_args] takes and goes on from: no help, no version,
    nothing malformed. *)
Definition accepted (item : cli_item) : bool :=
  match item with
  | Given (OptHelp | OptVersion) _ => false
  | _ => negb (malformed item)
  end.

(** [-h] or [-V] as a flag. *)
Definition asks_to_leave (item : cli_item) : bool :=
  match item with
  | Given (OptHelp | OptVersion) None => true
  | _ => false
  end.

(** [--always-ok] as a flag. *)
Definition sets_always_ok (item : cli_item) : bool :=
  match item with
  | Given OptAlwaysOk None => true
  | _ => false
  end.

(** ** Properties *)

(** *** Strings *)

#[local] Arguments String.append !s1 s2 : simpl nomatch.

Lemma append_assoc (a b c : string) : (a +:+ b) +:+ c = a +:+ (b +:+ c).
Proof. induction a as [|x a IH]; simpl; [reflexivity | now rewrite IH]. Qed.

Lemma append_eq_empty (a b : string) : a +:+ b = "" -> b = "".
Proof. destruct a; simpl; [auto | discriminate]. Qed.

(** Stripping on the right only looks at the end of a string. *)
Lemma rstrip_append (s t : string) :
  PyStr.rstrip t <> "" -> PyStr.rstrip (s +:+ t) = s +:+ PyStr.rstrip t.
Proof.
  intros Ht. induction s as [|a s IH]; simpl; [reflexivity |].
  rewrite IH. destruct (s +:+ PyStr.rstrip t) eqn:E; [| reflexivity].
  apply append_eq_empty in E. contradiction.
Qed.

Lemma rstrip_graphic (s : string) : graphic s = true -> PyStr.rstrip s = s.
Proof.
  induction s as [|a s IH]; simpl; [reflexivity |].
  intros [Ha Hs]%andb_true_iff. rewrite (IH Hs).
  destruct s; [| reflexivity]. now destruct (PyStr.is_space a).
Qed.

Lemma graphic_append (s t : string) :
  graphic s = true -> graphic t = true -> graphic (s +:+ t) = true.
Proof.
  induction s as [|a s IH]; simpl; [auto |].
  intros [Ha Hs]%andb_true_iff Ht. rewrite Ha. simpl. auto.
Qed.

Lemma graphic_pretty_N_go (x : N) (s : string) :
  graphic s = true -> graphic (pretty_N_go x s) = true.
Proof.
  revert s. induction (N.lt_wf_0 x) as [x _ IH]. intros s Hs.
  destruct (N.eq_dec x 0%N) as [-> | Hx]; [now rewrite pretty_N_go_0 |].
  rewrite pretty_N_go_step by lia. apply IH.
  - apply N.div_lt; lia.
  - simpl. rewrite Hs, andb_true_r.
    unfold pretty_N_char. now repeat case_match.
Qed.

Lemma graphic_pretty_N (x : N) : graphic (pretty x) = true.
Proof.
  unfold pretty, pretty_N. case_decide; [reflexivity |].
  now apply graphic_pretty_N_go.
Qed.

Lemma graphic_str_int (n : Z) : graphic (PyStr.str_int n) = true.
Proof.
  unfold PyStr.str_int, pretty, pretty_Z. destruct n as [|p|p].
  - reflexivity.
  - apply (graphic_pretty_N (N.pos p)).
  - apply graphic_append; [reflexivity | apply (graphic_pretty_N (N.pos p))].
Qed.

Lemma pretty_N_go_nonempty (x : N) (s : string) :
  s <> "" -> pretty_N_go x s <> "".
Proof.
  revert s. induction (N.lt_wf_0 x) as [x _ IH]. intros s Hs.
  destruct (N.eq_dec x 0%N) as [-> | Hx]; [now rewrite pretty_N_go_0 |].
  rewrite pretty_N_go_step by lia. apply IH; [apply N.div_lt; lia | discriminate].
Qed.

Lemma pretty_N_nonempty (x : N) : pretty x <> "".
Proof.
  unfold pretty, pretty_N. case_decide; [discriminate |].
  rewrite pretty_N_go_step by lia. apply pretty_N_go_nonempty. discriminate.
Qed.

Lemma str_int_nonempty (n : Z) : PyStr.str_int n <> "".
Proof.
  unfold PyStr.str_int, pretty, pretty_Z. destruct n as [|p|p].
  - discriminate.
  - apply (pretty_N_nonempty (N.pos p)).
  - discriminate.
Qed.

(** *** The run, step by step *)

#[local] Ltac step := cbv beta iota delta [coe mbind proc_bind mret proc_ret fst snd].

#[local] Ltac not_returned :=
  unfold parser_error, mbind, proc_bind, write, sys_exit; discriminate.

Lemma take_actions_silent (items : list cli_item) (ns : Namespace)
    (host : option string) (strays : bool) (out out' : string) (args : Namespace) :
  take_actions items ns host strays out = Returns out' args -> out' = out.
Proof.
  revert ns host strays.
  induction items as [|item rest IH]; intros ns host strays; simpl.
  - destruct host; [destruct strays |]; try not_returned.
    unfold mret, proc_ret. congruence.
  - destruct item as [[] [a|] | token]; try not_returned; try apply IH.
    + destruct (PyInt.of_string a); [apply IH | not_returned].
    + destruct (PyInt.of_string a); [apply IH | not_returned].
Qed.

(** Nothing is lost by asking [parses] for an empty output. *)
Lemma parse_args_silent (argv : list cli_item) (out : string) (args : Namespace) :
  parse_args argv "" = Returns out args -> parses argv args.
Proof.
  intros H. unfold parses. rewrite H. f_equal.
  now apply (take_actions_silent _ _ _ _ _ _ _ H).
Qed.

Lemma get_perfdata_entry (label : string) (value : json) :
  get_perfdata label value None None None (Some 0) None = perf_entry label value.
Proof.
  unfold get_perfdata, perf_entry. change (PyStr.str_int 0) with "0".
  now rewrite !append_assoc.
Qed.

Lemma main_perfdata_entries (m : metrics) :
  main_perfdata m =
    perf_entry "adsb_tracked" (adsb_tracked m)
      +:+ perf_entry "non_adsb_tracked" (non_adsb_tracked m)
      +:+ perf_entry "sum_tracked" (sum_tracked m).
Proof.
  unfold main_perfdata. rewrite !get_perfdata_entry. 
  change ("" +:+ ?x) with x. now rewrite !append_assoc.
Qed.

Lemma main_perfdata_nonempty (m : metrics) :
  String.eqb (main_perfdata m) "" = false.
Proof. rewrite main_perfdata_entries. reflexivity. Qed.

(** The whole run after a successful parse. *)
Lemma run_after_parse (argv : list cli_item) (now : Datetime.datetime) (args : Namespace) :
  parses argv args ->
  check_fr24feed argv now =
    match run_monitor_check (monitor_path args) with
    | Failure reason => Outcome (line reason) STATE_UNKNOWN
    | Success response =>
        match get_sec_last_status now response with
        | Failure reason => Outcome (line reason) STATE_UNKNOWN
        | Success diffSecs =>
            match get_metrics response with
            | Failure reason => Outcome (line reason) STATE_UNKNOWN
            | Success m =>
                match get_status response with
                | Failure reason => Outcome (line reason) STATE_UNKNOWN
                | Success st =>
                    Outcome (line (PyStr.strip (check_thresholds diffSecs args st "").1 +:+ "|"
                                     +:+ PyStr.strip (main_perfdata m)))
                            (check_thresholds diffSecs args st "").2
                end
            end
        end
    end.
Proof.
  intros Hparse. unfold check_fr24feed, execute, main, mbind, proc_bind.
  unfold try_except_SystemExit. rewrite Hparse.
  destruct (run_monitor_check _) as [response|]; [| reflexivity]. step.
  destruct (get_sec_last_status _ _) as [diffSecs|]; [| reflexivity]. step.
  destruct (get_metrics _) as [m|]; [| reflexivity]. step.
  destruct (get_status _) as [st|]; [| reflexivity]. step.
  destruct (check_thresholds _ _ _ _) as [msg state].
  unfold oao. step. rewrite main_perfdata_nonempty. reflexivity.
Qed.

(** *** What [strip] leaves alone *)

Lemma tight_append (s t : string) : tight t -> tight (s +:+ t).
Proof.
  intros [Hr Hne]. split.
  - rewrite rstrip_append; rewrite Hr; [reflexivity | assumption].
  - intros E. apply append_eq_empty in E. contradiction.
Qed.

Lemma tight_graphic (t : string) : graphic t = true -> t <> "" -> tight t.
Proof. intros Hg Hne. split; [now apply rstrip_graphic | assumption]. Qed.

Lemma tight_str_int (n : Z) : tight (PyStr.str_int n).
Proof. apply tight_graphic; [apply graphic_str_int | apply str_int_nonempty]. Qed.

Lemma tight_two_digits (n : Z) : tight (Datetime.two_digits n).
Proof.
  unfold Datetime.two_digits. destruct (n <? 10).
  - apply tight_append, (tight_str_int n).
  - apply (tight_str_int n).
Qed.

Lemma tight_strftime (dt : Datetime.datetime) : tight (Datetime.strftime dt).
Proof.
  unfold Datetime.strftime. destruct (Datetime.civil_from_days _) as [[y m] d].
  repeat apply tight_append. apply tight_two_digits.
Qed.

Lemma strip_tight (a : ascii) (s : string) :
  PyStr.is_space a = false -> tight (String a s) ->
  PyStr.strip (String a s) = String a s.
Proof. intros Ha [Hr _]. unfold PyStr.strip. simpl PyStr.lstrip. now rewrite Ha. Qed.

Lemma strip_tight_append (a : ascii) (s t : string) :
  PyStr.is_space a = false -> tight t ->
  PyStr.strip (String a s +:+ t) = String a s +:+ t.
Proof.
  intros Ha Ht. apply (strip_tight a (s +:+ t) Ha), (tight_append (String a s) t Ht).
Qed.

Lemma strip_crit_message (e : Z) :
  PyStr.strip ("CRIT threshold reached: " +:+ PyStr.str_int e)
  = "CRIT threshold reached: " +:+ PyStr.str_int e.
Proof.
  apply (strip_tight_append "C" "RIT threshold reached: "); [reflexivity |].
  apply tight_str_int.
Qed.

Lemma strip_warn_message (e : Z) :
  PyStr.strip ("WARN threshold reached: " +:+ PyStr.str_int e)
  = "WARN threshold reached: " +:+ PyStr.str_int e.
Proof.
  apply (strip_tight_append "W" "ARN threshold reached: "); [reflexivity |].
  apply tight_str_int.
Qed.

Lemma strip_quoted (s t : string) :
  PyStr.rstrip t <> "" ->
  PyStr.strip ("'" +:+ s +:+ t) = "'" +:+ s +:+ PyStr.rstrip t.
Proof.
  intros Ht. unfold PyStr.strip.
  change (PyStr.lstrip ("'" +:+ s +:+ t)) with (("'" +:+ s) +:+ t).
  now rewrite rstrip_append.
Qed.

(** The performance data loses its last blank and nothing else. *)
Lemma strip_main_perfdata (m : metrics) :
  PyStr.strip (main_perfdata m) =
    perf_entry "adsb_tracked" (adsb_tracked m)
      +:+ perf_entry "non_adsb_tracked" (non_adsb_tracked m)
      +:+ "'sum_tracked'=" +:+ py_format (sum_tracked m) +:+ ";;;0;".
Proof.
  transitivity
    (PyStr.strip
       ("'" +:+ ("adsb_tracked'=" +:+ py_format (adsb_tracked m) +:+ ";;;0; "
                   +:+ perf_entry "non_adsb_tracked" (non_adsb_tracked m)
                   +:+ "'sum_tracked'=" +:+ py_format (sum_tracked m))
            +:+ ";;;0; ")).
  - f_equal. rewrite main_perfdata_entries. unfold perf_entry.
    rewrite !append_assoc. reflexivity.
  - rewrite strip_quoted by (vm_compute; discriminate).
    change (PyStr.rstrip ";;;0; ") with ";;;0;".
    unfold perf_entry. rewrite !append_assoc. reflexivity.
Qed.

(** *** The threshold check, branch by branch *)

Lemma check_thresholds_crit (e : Z) (args : Namespace) (st : status) :
  e > CRIT args ->
  check_thresholds e args st "" =
    ("CRIT threshold reached: " +:+ PyStr.str_int e, STATE_CRIT).
Proof.
  intros H. unfold check_thresholds.
  destruct (Z.gtb_spec e (CRIT args)); [reflexivity | lia].
Qed.

Lemma check_thresholds_warn (e : Z) (args : Namespace) (st : status) :
  e <= CRIT args -> e > WARN args ->
  check_thresholds e args st "" =
    ("WARN threshold reached: " +:+ PyStr.str_int e, STATE_WARN).
Proof.
  intros Hc Hw. unfold check_thresholds.
  destruct (Z.gtb_spec e (CRIT args)); [lia |].
  destruct (Z.gtb_spec e (WARN args)); [reflexivity | lia].
Qed.

Lemma check_thresholds_ok (e : Z) (args : Namespace) (st : status) (text : string) :
  e <= CRIT args -> e <= WARN args -> feed_status st = JStr text ->
  check_thresholds e args st "" =
    ("Feeder: OK - " +:+ PyStr.str_int e +:+ "s since last upload" +:+ PyStr.nl
       +:+ "Status: " +:+ text +:+ " since " +:+ feed_last_connected_time st,
     STATE_OK).
Proof.
  intros Hc Hw Hst. unfold check_thresholds.
  destruct (Z.gtb_spec e (CRIT args)); [lia |].
  destruct (Z.gtb_spec e (WARN args)); [lia |].
  rewrite Hst. simpl py_add_str. cbv beta iota. f_equal.
  now rewrite !append_assoc.
Qed.

Lemma check_thresholds_raises (e : Z) (args : Namespace) (st : status) :
  e <= CRIT args -> e <= WARN args -> (forall text, feed_status st <> JStr text) ->
  (check_thresholds e args st "").2 = STATE_UNKNOWN.
Proof.
  intros Hc Hw Hst. unfold check_thresholds.
  destruct (Z.gtb_spec e (CRIT args)); [lia |].
  destruct (Z.gtb_spec e (WARN args)); [lia |].
  destruct (feed_status st) as [| | | |text| |]; try reflexivity.
  now destruct (Hst text).
Qed.

Lemma run_at_thresholds (argv : list cli_item) (now : Datetime.datetime)
    (args : Namespace) (e : Z) (m : metrics) (st : status) :
  reaches_thresholds argv now args e m st ->
  check_fr24feed argv now =
    Outcome (line (PyStr.strip (check_thresholds e args st "").1 +:+ "|"
                     +:+ PyStr.strip (main_perfdata m)))
            (check_thresholds e args st "").2.
Proof.
  intros [Hparse (response & Hfetch & He & Hm & Hst)].
  rewrite (run_after_parse argv now args Hparse), Hfetch, He, Hm, Hst.
  reflexivity.
Qed.

Lemma contains_in_line (pre sub post : string) :
  PyStr.contains (line (pre +:+ sub +:+ post)) sub.
Proof.
  exists pre, (post +:+ PyStr.nl). unfold line. now rewrite !append_assoc.
Qed.

(** *** The extraction steps *)

Lemma get_metrics_success (data : json) (m : metrics) :
  get_metrics data = Success m <->
  py_getitem data "feed_num_ac_adsb_tracked" = Some (adsb_tracked m)
  /\ py_getitem data "feed_num_ac_non_adsb_tracked" = Some (non_adsb_tracked m)
  /\ py_getitem data "feed_num_ac_tracked" = Some (sum_tracked m).
Proof.
  unfold get_metrics. destruct m as [a b c]. simpl.
  destruct (py_getitem data "feed_num_ac_adsb_tracked") as [a'|]; simpl;
    [| split; [discriminate | intros [? _]; discriminate]].
  destruct (py_getitem data "feed_num_ac_non_adsb_tracked") as [b'|]; simpl;
    [| split; [discriminate | intros (_ & ? & _); discriminate]].
  destruct (py_getitem data "feed_num_ac_tracked") as [c'|]; simpl;
    [| split; [discriminate | intros (_ & _ & ?); discriminate]].
  split; [intros [= -> -> ->]; auto | intros ([= ->] & [= ->] & [= ->]); reflexivity].
Qed.

Lemma get_status_success (data : json) (st : status) :
  get_status data = Success st ->
  py_getitem data "feed_status" = Some (feed_status st)
  /\ py_getitem data "last_rx_connect_status" = Some (last_rx_connect_status st)
  /\ exists field connected dt,
       py_getitem data "feed_last_connected_time" = Some field
       /\ py_int field = Some connected
       /\ Datetime.utcfromtimestamp connected = Some dt
       /\ feed_last_connected_time st = Datetime.strftime dt.
Proof.
  unfold get_status.
  destruct (py_getitem data "feed_status") as [feed|]; simpl; [| discriminate].
  destruct (py_getitem data "last_rx_connect_status") as [rx|]; simpl; [| discriminate].
  destruct (py_getitem data "feed_last_connected_time") as [field|]; simpl; [| discriminate].
  destruct (py_int field) as [connected|] eqn:Hint; simpl; [| discriminate].
  destruct (Datetime.utcfromtimestamp connected) as [dt|] eqn:Hdt; simpl; [| discriminate].
  intros [= <-]. simpl. split; [reflexivity |]. split; [reflexivity |].
  exists field, connected, dt. auto.
Qed.

Lemma strip_ok_message (e : Z) (text : string) (dt : Datetime.datetime) :
  let msg := "Feeder: OK - " +:+ PyStr.str_int e +:+ "s since last upload" +:+ PyStr.nl
               +:+ "Status: " +:+ text +:+ " since " +:+ Datetime.strftime dt in
  PyStr.strip msg = msg.
Proof.
  intros msg. subst msg.
  apply (strip_tight_append "F" "eeder: OK - "); [reflexivity |].
  do 6 apply tight_append. apply tight_strftime.
Qed.

(** *** The order of the steps *)

(** C3. The steps run in the order fetch, freshness, metrics, status.
    Whichever of them is the first to fail, the run writes that step's
    diagnostic string as its only line (no performance data, nothing of
    another step) and exits with 3, whatever the later steps would have
    returned. *)
Theorem first_failure_aborts (argv : list cli_item) (now : Datetime.datetime)
    (args : Namespace) :
  parses argv args ->
  (forall reason,
      run_monitor_check (monitor_path args) = Failure reason ->
      check_fr24feed argv now = Outcome (line reason) 3)
  /\ (forall response reason,
      run_monitor_check (monitor_path args) = Success response ->
      get_sec_last_status now response = Failure reason ->
      check_fr24feed argv now = Outcome (line reason) 3)
  /\ (forall response diffSecs reason,
      run_monitor_check (monitor_path args) = Success response ->
      get_sec_last_status now response = Success diffSecs ->
      get_metrics response = Failure reason ->
      check_fr24feed argv now = Outcome (line reason) 3)
  /\ (forall response diffSecs m reason,
      run_monitor_check (monitor_path args) = Success response ->
      get_sec_last_status now response = Success diffSecs ->
      get_metrics response = Success m ->
      get_status response = Failure reason ->
      check_fr24feed argv now = Outcome (line reason) 3).
Proof.
  intros Hparse. rewrite (run_after_parse argv now args Hparse).
  repeat split.
  - intros reason ->. reflexivity.
  - intros response reason -> ->. reflexivity.
  - intros response diffSecs reason -> -> ->. reflexivity.
  - intros response diffSecs m reason -> -> -> ->. reflexivity.
Qed.

(** *** The verdict *)

(** C1 (as amended).  With [e] the age of the last upload, [c] the
    critical and [w] the warning threshold: [e > c] gives state 2 and a
    message that holds [e]; otherwise [e > w] gives state 1 and a message
    that holds [e]; otherwise the state is 0 when the feed status is
    text, and 3 when it is not (the healthy message cannot be built).
    The bounds are exclusive: [e = c] with [e > w] is a warning, [e = w]
    with [e <= c] is healthy, and an age above [c] is never a warning. *)
Theorem verdict_by_thresholds (argv : list cli_item) (now : Datetime.datetime)
    (args : Namespace) (e : Z) (m : metrics) (st : status) :
  reaches_thresholds argv now args e m st ->
  let run := check_fr24feed argv now in
  (e > CRIT args ->
     exit_code run = STATE_CRIT /\ PyStr.contains (stdout run) (PyStr.str_int e))
  /\ (e <= CRIT args -> e > WARN args ->
     exit_code run = STATE_WARN /\ PyStr.contains (stdout run) (PyStr.str_int e))
  /\ (e <= CRIT args -> e <= WARN args ->
     (forall text, feed_status st = JStr text -> exit_code run = STATE_OK)
     /\ ((forall text, feed_status st <> JStr text) -> exit_code run = STATE_UNKNOWN))
  /\ (e = CRIT args -> e > WARN args -> exit_code run = STATE_WARN)
  /\ (e = WARN args -> e <= CRIT args ->
     forall text, feed_status st = JStr text -> exit_code run = STATE_OK)
  /\ (e > CRIT args -> exit_code run <> STATE_WARN).
Proof.
  intros Hreach run. subst run. rewrite (run_at_thresholds _ _ _ _ _ _ Hreach).
  assert (Hcrit : e > CRIT args ->
            check_thresholds e args st "" =
              ("CRIT threshold reached: " +:+ PyStr.str_int e, STATE_CRIT))
    by apply check_thresholds_crit.
  assert (Hwarn : e <= CRIT args -> e > WARN args ->
            check_thresholds e args st "" =
              ("WARN threshold reached: " +:+ PyStr.str_int e, STATE_WARN))
    by apply check_thresholds_warn.
  cbn [exit_code stdout]. repeat split.
  - now rewrite Hcrit.
  - rewrite Hcrit by assumption. cbn [fst]. rewrite strip_crit_message, append_assoc.
    apply contains_in_line.
  - now rewrite Hwarn.
  - rewrite Hwarn by assumption. cbn [fst]. rewrite strip_warn_message, append_assoc.
    apply contains_in_line.
  - intros text Htext. now rewrite (check_thresholds_ok e args st text).
  - now apply check_thresholds_raises.
  - intros -> Hw. rewrite Hwarn; [reflexivity | lia | assumption].
  - intros Hw Hc text Htext.
    rewrite (check_thresholds_ok e args st text); [reflexivity | lia | lia | assumption].
  - intros Hc. rewrite Hcrit by assumption. discriminate.
Qed.

(** *** Performance data *)

(** C9.  Whatever branch the threshold check takes, the run writes the
    stripped message, a [|] and the stripped performance data.  The
    performance data are the entries of the three counters
    [adsb_tracked], [non_adsb_tracked], [sum_tracked] in this order, each
    ['label'=value;;;0; ] with empty warn, crit and max, a floor of 0 and
    a blank at the end; stripping removes the last blank only.  A counter
    that is the integer [n] is written as its decimal digits. *)
Theorem perfdata_in_every_branch (argv : list cli_item) (now : Datetime.datetime)
    (args : Namespace) (e : Z) (m : metrics) (st : status) :
  reaches_thresholds argv now args e m st ->
  stdout (check_fr24feed argv now) =
    line (PyStr.strip (check_thresholds e args st "").1 +:+ "|"
            +:+ PyStr.strip (main_perfdata m))
  /\ main_perfdata m =
       get_perfdata "adsb_tracked" (adsb_tracked m) None None None (Some 0) None
         +:+ get_perfdata "non_adsb_tracked" (non_adsb_tracked m) None None None (Some 0) None
         +:+ get_perfdata "sum_tracked" (sum_tracked m) None None None (Some 0) None
  /\ (forall label value,
        get_perfdata label value None None None (Some 0) None
        = "'" +:+ label +:+ "'=" +:+ py_format value +:+ ";;;0; ")
  /\ PyStr.strip (main_perfdata m) =
       "'adsb_tracked'=" +:+ py_format (adsb_tracked m) +:+ ";;;0; "
         +:+ "'non_adsb_tracked'=" +:+ py_format (non_adsb_tracked m) +:+ ";;;0; "
         +:+ "'sum_tracked'=" +:+ py_format (sum_tracked m) +:+ ";;;0;"
  /\ (forall response,
        get_metrics response = Success m ->
        py_getitem response "feed_num_ac_adsb_tracked" = Some (adsb_tracked m)
        /\ py_getitem response "feed_num_ac_non_adsb_tracked" = Some (non_adsb_tracked m)
        /\ py_getitem response "feed_num_ac_tracked" = Some (sum_tracked m))
  /\ (forall n, py_format (JInt n) = PyStr.str_int n).
Proof.
  intros Hreach. rewrite (run_at_thresholds _ _ _ _ _ _ Hreach).
  split; [reflexivity |]. split.
  { rewrite main_perfdata_entries, !get_perfdata_entry. reflexivity. }
  split; [intros label value; apply get_perfdata_entry |]. split.
  { rewrite strip_main_perfdata. unfold perf_entry.
    rewrite !append_assoc. reflexivity. }
  split; [intros response; apply get_metrics_success | reflexivity].
Qed.

(** *** The status text *)

(** C10.  Once fetch, freshness and metrics have succeeded, a failing
    status extraction ends the run with its diagnostic and 3, whatever
    the age is.  When it succeeds, the critical and the warning message
    are exactly [CRIT threshold reached: e] and [WARN threshold reached:
    e], the same for every status, so nothing of the status is in them;
    only the healthy message carries the feed status of the response and
    the formatted time of its last connection, after
    [Feeder: OK - es since last upload].  Stripping changes none of the
    three. *)
Theorem status_only_in_healthy_message (argv : list cli_item)
    (now : Datetime.datetime) (args : Namespace) (response : json) (e : Z)
    (m : metrics) :
  parses argv args ->
  run_monitor_check (monitor_path args) = Success response ->
  get_sec_last_status now response = Success e ->
  get_metrics response = Success m ->
  (forall reason,
      get_status response = Failure reason ->
      check_fr24feed argv now = Outcome (line reason) STATE_UNKNOWN)
  /\ (forall st,
      get_status response = Success st ->
      let msg := (check_thresholds e args st "").1 in
      stdout (check_fr24feed argv now)
        = line (PyStr.strip msg +:+ "|" +:+ PyStr.strip (main_perfdata m))
      /\ (e > CRIT args ->
          msg = "CRIT threshold reached: " +:+ PyStr.str_int e
          /\ PyStr.strip msg = msg
          /\ forall st', (check_thresholds e args st' "").1 = msg)
      /\ (e <= CRIT args -> e > WARN args ->
          msg = "WARN threshold reached: " +:+ PyStr.str_int e
          /\ PyStr.strip msg = msg
          /\ forall st', (check_thresholds e args st' "").1 = msg)
      /\ (e <= CRIT args -> e <= WARN args ->
          forall text, feed_status st = JStr text ->
          msg = "Feeder: OK - " +:+ PyStr.str_int e +:+ "s since last upload"
                  +:+ PyStr.nl +:+ "Status: " +:+ text +:+ " since "
                  +:+ feed_last_connected_time st
          /\ PyStr.strip msg = msg)
      /\ py_getitem response "feed_status" = Some (feed_status st)
      /\ exists field connected dt,
           py_getitem response "feed_last_connected_time" = Some field
           /\ py_int field = Some connected
           /\ Datetime.utcfromtimestamp connected = Some dt
           /\ feed_last_connected_time st = Datetime.strftime dt).
Proof.
  intros Hparse Hfetch He Hm. split.
  - intros reason Hst.
    now rewrite (run_after_parse argv now args Hparse), Hfetch, He, Hm, Hst.
  - intros st Hst msg. subst msg. split.
    { rewrite (run_at_thresholds argv now args e m st); [reflexivity |].
      split; [assumption |]. exists response. repeat split; assumption. }
    split; [| split; [| split; [| split]]].
    + intros Hc. rewrite check_thresholds_crit by assumption. cbn [fst].
      split; [reflexivity |]. split; [apply strip_crit_message |].
      intros st'. now rewrite check_thresholds_crit.
    + intros Hc Hw. rewrite check_thresholds_warn by assumption. cbn [fst].
      split; [reflexivity |]. split; [apply strip_warn_message |].
      intros st'. now rewrite check_thresholds_warn.
    + intros Hc Hw text Htext.
      rewrite (check_thresholds_ok e args st text) by assumption. cbn [fst].
      split; [reflexivity |].
      destruct (get_status_success response st Hst)
        as (_ & _ & field & connected & dt & _ & _ & _ & ->).
      apply strip_ok_message.
    + apply (get_status_success response st Hst).
    + apply (get_status_success response st Hst).
Qed.

(** *** A response without the sum of the counters *)

(** C6 (as amended).  A decoded mapping without the key
    [feed_num_ac_tracked] always ends the run with 3.  The line is
    [ValueError: Metrics could not be parsed] when the freshness step
    succeeds on the mapping; when that step fails, it comes first and the
    line is its own. *)
Theorem missing_sum_tracked (argv : list cli_item) (now : Datetime.datetime)
    (args : Namespace) (fields : gmap string json) :
  parses argv args ->
  run_monitor_check (monitor_path args) = Success (JObj fields) ->
  fields !! "feed_num_ac_tracked" = None ->
  exit_code (check_fr24feed argv now) = STATE_UNKNOWN
  /\ (forall e,
        get_sec_last_status now (JObj fields) = Success e ->
        check_fr24feed argv now
          = Outcome (line "ValueError: Metrics could not be parsed") STATE_UNKNOWN)
  /\ (forall reason,
        get_sec_last_status now (JObj fields) = Failure reason ->
        check_fr24feed argv now
          = Outcome (line "ValueError: Last Status could not be parsed") STATE_UNKNOWN).
Proof.
  intros Hparse Hfetch Hnone.
  assert (Hm : get_metrics (JObj fields)
               = Failure "ValueError: Metrics could not be parsed").
  { unfold get_metrics. simpl py_getitem. rewrite Hnone.
    destruct (fields !! "feed_num_ac_adsb_tracked"); [| reflexivity].
    destruct (fields !! "feed_num_ac_non_adsb_tracked"); reflexivity. }
  rewrite (run_after_parse argv now args Hparse), Hfetch, Hm.
  split; [| split].
  - destruct (get_sec_last_status now (JObj fields)); reflexivity.
  - now intros e ->.
  - intros reason Hfail. rewrite Hfail. f_equal. f_equal.
    unfold get_sec_last_status in Hfail.
    destruct (_ ≫= _) in Hfail; [discriminate | congruence].
Qed.

(** *** Freshness *)

Lemma whole_seconds (x : Z) :
  x / 86400000000 * 24 * 60 * 60 + x mod 86400000000 / 1000000 = x / 1000000.
Proof. clear. Z.div_mod_to_equations. lia. Qed.

Lemma abs_delta_seconds (d : Z) :
  let delta := Datetime.abs (Datetime.mk_timedelta 0 0 d) in
  Datetime.days delta * 24 * 60 * 60 + Datetime.seconds delta = Z.abs d / 1000000.
Proof.
  clear. unfold Datetime.abs, Datetime.mk_timedelta. cbn [Datetime.days].
  replace ((0 * 86400 + 0) * 1000000 + d) with d by ring.
  destruct (Z.ltb_spec (d / 86400000000) 0) as [Hneg | Hpos].
  - unfold Datetime.neg, Datetime.mk_timedelta.
    cbn [Datetime.days Datetime.seconds Datetime.microseconds].
    replace ((- (d / 86400000000) * 86400 + - (d mod 86400000000 / 1000000)) * 1000000
             + - (d mod 1000000)) with (- d)
      by (Z.div_mod_to_equations; lia).
    rewrite whole_seconds. f_equal. Z.div_mod_to_equations. lia.
  - cbn [Datetime.days Datetime.seconds]. rewrite whole_seconds.
    f_equal. Z.div_mod_to_equations. lia.
Qed.

(** C4 (as amended).  When [feed_last_ac_sent_time] converts to the
    integer [t] and [t] is a timestamp [datetime] can hold (the years 1
    to 9999), the freshness step returns [|now - t|] cut to whole
    seconds, which is never negative, whether [t] lies before or after
    [now].  For a [t] outside that range the step fails. *)
Theorem elapsed_is_absolute_difference (now : Datetime.datetime)
    (fields : gmap string json) (v : json) (t : Z) :
  fields !! "feed_last_ac_sent_time" = Some v ->
  py_int v = Some t ->
  let elapsed := Z.quot (Z.abs (Datetime.since_epoch_us now - t * 1000000)) 1000000 in
  (Datetime.MIN_TIMESTAMP <= t <= Datetime.MAX_TIMESTAMP ->
     get_sec_last_status now (JObj fields) = Success elapsed /\ 0 <= elapsed)
  /\ (t < Datetime.MIN_TIMESTAMP \/ Datetime.MAX_TIMESTAMP < t ->
     get_sec_last_status now (JObj fields)
       = Failure "ValueError: Last Status could not be parsed").
Proof.
  intros Hfield Hint elapsed. unfold get_sec_last_status. simpl py_getitem.
  rewrite Hfield. simpl. rewrite Hint. simpl. unfold Datetime.utcfromtimestamp.
  split.
  - intros [Hlo Hhi].
    destruct (Z.leb_spec Datetime.MIN_TIMESTAMP t); [| lia].
    destruct (Z.leb_spec t Datetime.MAX_TIMESTAMP); [| lia].
    simpl. unfold Datetime.sub. cbn [Datetime.since_epoch_us].
    rewrite abs_delta_seconds. subst elapsed.
    rewrite Z.quot_div_nonneg by lia. split; [reflexivity |].
    apply Z.div_pos; lia.
  - intros [Hlo | Hhi].
    + destruct (Z.leb_spec Datetime.MIN_TIMESTAMP t); [lia | reflexivity].
    + destruct (Z.leb_spec Datetime.MIN_TIMESTAMP t); [| reflexivity].
      destruct (Z.leb_spec t Datetime.MAX_TIMESTAMP); [lia | reflexivity].
Qed.

(** *** Required fields *)

(** C5 (as amended).  A missing field fails the step that reads it, for
    each of the seven fields.  A value [int()] cannot convert fails the
    freshness step in [feed_last_ac_sent_time] and the status step in
    [feed_last_connected_time].  The three counters are not converted:
    the metrics step succeeds with whatever values the three keys hold. *)
Theorem required_fields (now : Datetime.datetime) (data : json) :
  (py_getitem data "feed_last_ac_sent_time" = None ->
     get_sec_last_status now data = Failure "ValueError: Last Status could not be parsed")
  /\ (forall v,
        py_getitem data "feed_last_ac_sent_time" = Some v -> py_int v = None ->
        get_sec_last_status now data = Failure "ValueError: Last Status could not be parsed")
  /\ (py_getitem data "feed_num_ac_adsb_tracked" = None
      \/ py_getitem data "feed_num_ac_non_adsb_tracked" = None
      \/ py_getitem data "feed_num_ac_tracked" = None ->
      get_metrics data = Failure "ValueError: Metrics could not be parsed")
  /\ (py_getitem data "feed_status" = None
      \/ py_getitem data "last_rx_connect_status" = None
      \/ py_getitem data "feed_last_connected_time" = None ->
      get_status data = Failure "ValueError: Status could not be parsed")
  /\ (forall v,
        py_getitem data "feed_last_connected_time" = Some v -> py_int v = None ->
        get_status data = Failure "ValueError: Status could not be parsed")
  /\ (forall a b c,
        py_getitem data "feed_num_ac_adsb_tracked" = Some a ->
        py_getitem data "feed_num_ac_non_adsb_tracked" = Some b ->
        py_getitem data "feed_num_ac_tracked" = Some c ->
        get_metrics data = Success (Metrics a b c)).
Proof.
  repeat split.
  - intros H. unfold get_sec_last_status. now rewrite H.
  - intros v H Hv. unfold get_sec_last_status. rewrite H. simpl. now rewrite Hv.
  - unfold get_metrics. intros [H | [H | H]]; rewrite H.
    + reflexivity.
    + now destruct (py_getitem data "feed_num_ac_adsb_tracked").
    + destruct (py_getitem data "feed_num_ac_adsb_tracked"); [| reflexivity].
      now destruct (py_getitem data "feed_num_ac_non_adsb_tracked").
  - unfold get_status. intros [H | [H | H]]; rewrite H.
    + reflexivity.
    + now destruct (py_getitem data "feed_status").
    + destruct (py_getitem data "feed_status"); [| reflexivity].
      now destruct (py_getitem data "last_rx_connect_status").
  - intros v H Hv. unfold get_status. rewrite H.
    destruct (py_getitem data "feed_status"); [| reflexivity].
    destruct (py_getitem data "last_rx_connect_status"); [| reflexivity].
    simpl. now rewrite Hv.
  - intros a b c Ha Hb Hc. unfold get_metrics. now rewrite Ha, Hb, Hc.
Qed.

(** *** The command line *)

Lemma take_actions_exits (items : list cli_item) (ns : Namespace)
    (host : option string) (strays : bool) (out : string) :
  existsb malformed items = true \/ strays = true
  \/ (host = None /\ existsb gives_host items = false) ->
  exists out' code, take_actions items ns host strays out = Exits out' code.
Proof.
  clear repr requests_get_json. revert ns host strays.
  induction items as [|item rest IH]; intros ns host strays H.
  - simpl in H. destruct H as [H | [-> | [-> _]]]; [discriminate | |].
    + destruct host; now eexists _, _.
    + now eexists _, _.
  - destruct item as [[] [a|] | token]; simpl in H |- *;
      try (now eexists _, _); try (apply IH; tauto).
    + apply IH. destruct H as [H | [H | [_ H]]]; [tauto | tauto | discriminate].
    + destruct (PyInt.of_string a); [apply IH; tauto | now eexists _, _].
    + destruct (PyInt.of_string a); [apply IH; tauto | now eexists _, _].
Qed.

Lemma run_after_exit (argv : list cli_item) (now : Datetime.datetime)
    (out : string) (code : Z) :
  parse_args argv "" = Exits out code ->
  check_fr24feed argv now = Outcome out STATE_UNKNOWN.
Proof.
  intros H. unfold check_fr24feed, execute, main, mbind, proc_bind.
  unfold try_except_SystemExit. now rewrite H.
Qed.

(** C8.  Whenever [parse_args] leaves through [SystemExit], the run ends
    with 3 and with what the parser had written to standard output.  It
    does so for every command line with a malformed item and for every
    command line without a value for [--host]; the status is never the
    parser's own 2. *)
Theorem parser_exit_is_unknown (argv : list cli_item) (now : Datetime.datetime) :
  (forall out code,
      parse_args argv "" = Exits out code ->
      check_fr24feed argv now = Outcome out STATE_UNKNOWN)
  /\ (existsb malformed argv = true \/ existsb gives_host argv = false ->
      exit_code (check_fr24feed argv now) = STATE_UNKNOWN
      /\ exit_code (check_fr24feed argv now) <> 2).
Proof.
  split; [intros out code; apply run_after_exit |].
  intros H.
  destruct (take_actions_exits argv
              (Args false "" DEFAULT_PORT DEFAULT_CRIT DEFAULT_WARN) None false "")
    as (out & code & Hexit); [tauto |].
  rewrite (run_after_exit argv now out code Hexit). split; [reflexivity | discriminate].
Qed.

(** C7 (what the script does).  With [-V] the version line is written,
    and the exit status is 3: the [SystemExit] of the version action is
    caught in [main] like a parse failure. *)
Theorem version_exit_status (rest : list cli_item) (now : Datetime.datetime) :
  check_fr24feed (Given OptVersion None :: rest) now
  = Outcome (line (prog +:+ ": v2022031701 by Andreas Bucher")) STATE_UNKNOWN.
Proof. apply (run_after_exit _ now _ 0). reflexivity. Qed.

(** *** The always-ok flag *)

(** C2 (what the script does).  [main] does not hand the flag to [oao]:
    also with [--always-ok] parsed into the namespace, the exit status
    is the state of the threshold check, and the line is the one of the
    run. *)
Theorem always_ok_exit_status (argv : list cli_item) (now : Datetime.datetime)
    (args : Namespace) (e : Z) (m : metrics) (st : status) :
  reaches_thresholds argv now args e m st ->
  ALWAYS_OK args = true ->
  exit_code (check_fr24feed argv now) = (check_thresholds e args st "").2
  /\ (e > CRIT args -> exit_code (check_fr24feed argv now) = STATE_CRIT)
  /\ (e <= CRIT args -> e > WARN args ->
      exit_code (check_fr24feed argv now) = STATE_WARN).
Proof.
  intros Hreach _. rewrite (run_at_thresholds _ _ _ _ _ _ Hreach). cbn [exit_code].
  split; [reflexivity |]. split.
  - intros Hc. now rewrite check_thresholds_crit.
  - intros Hc Hw. now rewrite check_thresholds_warn.
Qed.

(** *** Decimal text and [int()] *)

Lemma blank_is_space (a : ascii) : PyInt.is_blank a = true -> PyStr.is_space a = true.
Proof.
  unfold PyInt.is_blank, PyStr.is_space. generalize (Z.of_nat (nat_of_ascii a)).
  intros n H. apply orb_true_iff in H as [H | H]; [| now rewrite H, orb_true_r].
  apply orb_true_iff in H as [H | H]; [| now rewrite H, !orb_true_r].
  apply orb_true_iff in H as [H | H]; [now rewrite H |].
  apply Z.eqb_eq in H as ->. reflexivity.
Qed.

Lemma lskip_graphic (a : ascii) (s : string) :
  graphic (String a s) = true -> PyInt.lskip (String a s) = String a s.
Proof.
  simpl. intros [Ha _]%andb_true_iff.
  destruct (PyInt.is_blank a) eqn:E; [| reflexivity].
  apply blank_is_space in E. now rewrite E in Ha.
Qed.

Lemma rskip_graphic (s : string) : graphic s = true -> PyInt.rskip s = s.
Proof.
  induction s as [|a s IH]; simpl; [reflexivity |].
  intros [Ha Hs]%andb_true_iff. rewrite (IH Hs).
  destruct s; [| reflexivity].
  destruct (PyInt.is_blank a) eqn:E; [| reflexivity].
  apply blank_is_space in E. now rewrite E in Ha.
Qed.

Lemma digit_pretty_N_char (d : N) :
  (d < 10)%N -> PyInt.digit (pretty_N_char d) = Some (Z.of_N d).
Proof.
  intros Hd.
  assert (d = 0 \/ d = 1 \/ d = 2 \/ d = 3 \/ d = 4 \/ d = 5 \/ d = 6 \/ d = 7
          \/ d = 8 \/ d = 9)%N as H by lia.
  repeat destruct H as [-> | H]; try subst d; reflexivity.
Qed.

Lemma digits_pretty_N_go (x : N) (s : string) :
  PyInt.digits 0 false (pretty_N_go x s) = PyInt.digits (Z.of_N x) false s.
Proof.
  revert s. induction (N.lt_wf_0 x) as [x _ IH]. intros s.
  destruct (N.eq_dec x 0%N) as [-> | Hx]; [now rewrite pretty_N_go_0 |].
  rewrite pretty_N_go_step by lia.
  rewrite IH by (apply N.div_lt; lia). simpl PyInt.digits.
  rewrite digit_pretty_N_char by (apply N.mod_lt; lia).
  f_equal. rewrite (N.div_mod x 10) at 3 by lia. lia.
Qed.

Lemma head_pretty_N_go (x : N) (s : string) :
  (exists a r, s = String a r /\ PyInt.digit a <> None) ->
  exists a r, pretty_N_go x s = String a r /\ PyInt.digit a <> None.
Proof.
  revert s. induction (N.lt_wf_0 x) as [x _ IH]. intros s Hs.
  destruct (N.eq_dec x 0%N) as [-> | Hx]; [now rewrite pretty_N_go_0 |].
  rewrite pretty_N_go_step by lia. apply IH; [apply N.div_lt; lia |].
  eexists _, _. split; [reflexivity |].
  now rewrite digit_pretty_N_char by (apply N.mod_lt; lia).
Qed.

Lemma unsigned_pretty_positive (p : positive) :
  exists a r, pretty (N.pos p) = String a r
              /\ PyInt.digit a <> None
              /\ PyInt.unsigned (String a r) = Some (Z.pos p).
Proof.
  unfold pretty, pretty_N. case_decide; [discriminate |].
  assert (Hhead : exists a r, pretty_N_go (N.pos p) "" = String a r
                              /\ PyInt.digit a <> None).
  { rewrite pretty_N_go_step by lia. apply head_pretty_N_go.
    eexists _, _. split; [reflexivity |].
    now rewrite digit_pretty_N_char by (apply N.mod_lt; lia). }
  destruct Hhead as (a & r & Heq & Ha). exists a, r. repeat split; try assumption.
  unfold PyInt.unsigned. destruct (PyInt.digit a) eqn:E; [| contradiction].
  rewrite <- Heq, digits_pretty_N_go. reflexivity.
Qed.

Lemma of_string_unsigned (a : ascii) (r : string) :
  PyInt.digit a <> None -> graphic (String a r) = true ->
  PyInt.of_string (String a r) = PyInt.unsigned (String a r).
Proof.
  intros Ha Hg. unfold PyInt.of_string.
  rewrite (lskip_graphic a r Hg), (rskip_graphic _ Hg).
  destruct a as [[] [] [] [] [] [] [] []]; try reflexivity; now destruct Ha.
Qed.

(** [int(str(n)) == n] *)
Lemma of_string_str_int (n : Z) : PyInt.of_string (PyStr.str_int n) = Some n.
Proof.
  pose proof (graphic_str_int n) as Hg. destruct n as [|p|p].
  - reflexivity.
  - destruct (unsigned_pretty_positive p) as (a & r & Heq & Ha & Hu).
    change (PyStr.str_int (Z.pos p)) with (pretty (N.pos p)) in *.
    rewrite Heq in *. now rewrite of_string_unsigned.
  - destruct (unsigned_pretty_positive p) as (a & r & Heq & Ha & Hu).
    change (PyStr.str_int (Z.neg p)) with ("-" +:+ pretty (N.pos p)) in *.
    rewrite Heq in *. unfold PyInt.of_string.
    change ("-" +:+ String a r) with (String "-" (String a r)) in *.
    rewrite (lskip_graphic _ _ Hg), (rskip_graphic _ Hg), Hu. reflexivity.
Qed.

(** *** The command line, item by item *)

#[local] Ltac by_last_arg :=
  match goal with
  | |- context [last_arg ?o ?rest] => destruct (last_arg o rest); simpl in *; congruence
  end.

Lemma take_actions_returns (items : list cli_item) (ns : Namespace)
    (host : option string) (strays : bool) (out out' : string) (args : Namespace) :
  take_actions items ns host strays out = Returns out' args ->
  forallb accepted items = true
  /\ strays = false
  /\ Some (HOST_IP args)
     = match last_arg OptHost items with Some h => Some h | None => host end
  /\ HOST_PORT args = default (HOST_PORT ns) (last_arg OptPort items)
  /\ Some (CRIT args)
     = match last_arg OptCritical items with
       | Some a => PyInt.of_string a
       | None => Some (CRIT ns)
       end
  /\ Some (WARN args)
     = match last_arg OptWarning items with
       | Some a => PyInt.of_string a
       | None => Some (WARN ns)
       end
  /\ ALWAYS_OK args = ALWAYS_OK ns || existsb sets_always_ok items.
Proof.
  clear repr requests_get_json. revert ns host strays.
  induction items as [|item rest IH]; intros ns host strays.
  - simpl. destruct host as [h|]; [destruct strays |]; try not_returned.
    unfold mret, proc_ret. intros [= _ <-]. simpl. now rewrite orb_false_r.
  - assert (Hgo : forall ns' host' strays',
               take_actions rest ns' host' strays' out = Returns out' args ->
               forallb accepted rest = true /\ strays' = false
               /\ Some (HOST_IP args)
                  = match last_arg OptHost rest with Some h => Some h | None => host' end
               /\ HOST_PORT args = default (HOST_PORT ns') (last_arg OptPort rest)
               /\ Some (CRIT args)
                  = match last_arg OptCritical rest with
                    | Some a => PyInt.of_string a
                    | None => Some (CRIT ns')
                    end
               /\ Some (WARN args)
                  = match last_arg OptWarning rest with
                    | Some a => PyInt.of_string a
                    | None => Some (WARN ns')
                    end
               /\ ALWAYS_OK args = ALWAYS_OK ns' || existsb sets_always_ok rest)
      by (intros ns' host' strays'; apply IH).
    destruct item as [[] [a|] | token]; simpl take_actions; try not_returned.
    + intros H. apply Hgo in H as (Hacc & Hs & Hh & Hp & Hc & Hw & Hf).
      simpl in *. rewrite Hacc. repeat split; try assumption; try by_last_arg.
      rewrite Hf. now destruct (ALWAYS_OK ns).
    + intros H. apply Hgo in H as (Hacc & Hs & Hh & Hp & Hc & Hw & Hf).
      simpl in *. rewrite Hacc. repeat split; try assumption; by_last_arg.
    + intros H. apply Hgo in H as (Hacc & Hs & Hh & Hp & Hc & Hw & Hf).
      simpl in *. rewrite Hacc. repeat split; try assumption; by_last_arg.
    + destruct (PyInt.of_string a) as [c|] eqn:Ha; [| not_returned].
      intros H. apply Hgo in H as (Hacc & Hs & Hh & Hp & Hc & Hw & Hf).
      simpl in *. rewrite Ha, Hacc. repeat split; try assumption; by_last_arg.
    + destruct (PyInt.of_string a) as [w|] eqn:Ha; [| not_returned].
      intros H. apply Hgo in H as (Hacc & Hs & Hh & Hp & Hc & Hw & Hf).
      simpl in *. rewrite Ha, Hacc. repeat split; try assumption; by_last_arg.
    + intros H. apply Hgo in H as (_ & Hs & _). discriminate.
Qed.

Lemma take_actions_accepts (items : list cli_item) (ns : Namespace)
    (host : option string) (out : string) :
  forallb accepted items = true ->
  is_Some host \/ existsb gives_host items = true ->
  exists args, take_actions items ns host false out = Returns out args.
Proof.
  clear repr requests_get_json. revert ns host.
  induction items as [|item rest IH]; intros ns host Hacc Hhost.
  - destruct Hhost as [[h ->] | H]; [| discriminate]. now eexists.
  - simpl in Hacc. apply andb_true_iff in Hacc as [Hitem Hrest].
    destruct item as [[] [a|] | token]; try discriminate; simpl take_actions.
    + apply IH; [assumption |]. destruct Hhost as [H | H]; [now left | now right].
    + apply IH; [assumption |]. left. now eexists.
    + apply IH; [assumption |]. destruct Hhost as [H | H]; [now left | now right].
    + simpl in Hitem. destruct (PyInt.of_string a); [| discriminate].
      apply IH; [assumption |]. destruct Hhost as [H | H]; [now left | now right].
    + simpl in Hitem. destruct (PyInt.of_string a); [| discriminate].
      apply IH; [assumption |]. destruct Hhost as [H | H]; [now left | now right].
Qed.

Lemma last_arg_gives_host (items : list cli_item) :
  is_Some (last_arg OptHost items) -> existsb gives_host items = true.
Proof.
  induction items as [|item rest IH]; simpl; [now intros [h H] |].
  destruct (last_arg OptHost rest) as [h'|].
  - intros _. rewrite IH by now eexists. apply orb_true_r.
  - destruct item as [[] [a|] | token]; simpl; now intros [h H].
Qed.

Lemma take_actions_leaves (items : list cli_item) (ns : Namespace)
    (host : option string) (strays : bool) (out out' : string) (code : Z) :
  take_actions items ns host strays out = Exits out' code ->
  (code = 2 /\ out' = out)
  \/ (code = 0 /\ existsb asks_to_leave items = true
      /\ (out' = out +:+ help_text
          \/ out' = out +:+ line (prog +:+ ": v" +:+ __version__ +:+ " by " +:+ __author__))).
Proof.
  clear repr requests_get_json. revert ns host strays.
  induction items as [|item rest IH]; intros ns host strays.
  - simpl. destruct host; [destruct strays |]; unfold parser_error, sys_exit;
      try (intros [= <- <-]; now left).
  - assert (Hgo : forall ns' host' strays',
               take_actions rest ns' host' strays' out = Exits out' code ->
               (code = 2 /\ out' = out)
               \/ (code = 0 /\ existsb asks_to_leave (item :: rest) = true
                   /\ (out' = out +:+ help_text
                       \/ out' = out +:+ line (prog +:+ ": v" +:+ __version__
                                                 +:+ " by " +:+ __author__)))).
    { intros ns' host' strays' H. apply IH in H as [H | (Hc & He & Ho)]; [now left |].
      right. simpl. rewrite He, orb_true_r. auto. }
    destruct item as [[] [a|] | token]; simpl take_actions;
      try (unfold parser_error, sys_exit; intros [= <- <-]; now left);
      try apply Hgo.
    + unfold mbind, proc_bind, write, sys_exit. intros [= <- <-]. right. auto.
    + unfold mbind, proc_bind, write, sys_exit. intros [= <- <-]. right. auto.
    + destruct (PyInt.of_string a); [apply Hgo |].
      unfold parser_error, sys_exit. intros [= <- <-]. now left.
    + destruct (PyInt.of_string a); [apply Hgo |].
      unfold parser_error, sys_exit. intros [= <- <-]. now left.
Qed.

(** X3.  The namespace [parse_args] returns holds, for each option, the
    argument of its last occurrence: the host, the port or ["8754"]
    without [--port], the [int()] of the critical and of the warning
    argument or 3600 and 600 without them, and [ALWAYS_OK] exactly when
    the flag is given. *)
Theorem parse_args_namespace (argv : list cli_item) (args : Namespace) :
  parses argv args ->
  last_arg OptHost argv = Some (HOST_IP args)
  /\ HOST_PORT args = default DEFAULT_PORT (last_arg OptPort argv)
  /\ match last_arg OptCritical argv with
     | Some a => PyInt.of_string a
     | None => Some DEFAULT_CRIT
     end = Some (CRIT args)
  /\ match last_arg OptWarning argv with
     | Some a => PyInt.of_string a
     | None => Some DEFAULT_WARN
     end = Some (WARN args)
  /\ ALWAYS_OK args = existsb sets_always_ok argv.
Proof.
  intros H. apply take_actions_returns in H as (_ & _ & Hh & Hp & Hc & Hw & Hf).
  cbn [HOST_PORT CRIT WARN ALWAYS_OK orb] in *.
  repeat split; try assumption; try (symmetry; assumption).
  destruct (last_arg OptHost argv); [now symmetry | discriminate].
Qed.

(** X4.  [parse_args] returns a namespace exactly for the command lines
    on which every item is an option in good form other than [-h] and
    [-V], and [--host] has a value somewhere. *)
Theorem parse_args_returns_iff (argv : list cli_item) :
  (exists args, parses argv args)
  <-> forallb accepted argv = true /\ existsb gives_host argv = true.
Proof.
  split.
  - intros [args H]. apply take_actions_returns in H as (Hacc & _ & Hh & _).
    split; [assumption |].
    apply last_arg_gives_host.
    destruct (last_arg OptHost argv) as [h|]; [now eexists | discriminate].
  - intros [Hacc Hhost]. apply take_actions_accepts; [assumption | now right].
Qed.

(** X5.  When [parse_args] leaves, it does so with status 2 and nothing
    on standard output, or with status 0 after the help or the version
    line, and the latter only if [-h] or [-V] is on the command line. *)
Theorem parse_args_exit_codes (argv : list cli_item) (out : string) (code : Z) :
  parse_args argv "" = Exits out code ->
  (code = 2 /\ out = "")
  \/ (code = 0 /\ existsb asks_to_leave argv = true
      /\ (out = help_text
          \/ out = line (prog +:+ ": v2022031701 by Andreas Bucher"))).
Proof. intros H. now apply take_actions_leaves in H. Qed.


(** *** The extraction steps, both ways *)

(** X7.  The freshness step succeeds exactly when the field is there,
    [int()] converts it and the integer is a timestamp [datetime] holds;
    the result is then the whole seconds between the two times.  In every
    other case it returns one and the same reason. *)
Theorem freshness_result (now : Datetime.datetime) (data : json) :
  (forall e,
      get_sec_last_status now data = Success e <->
      exists v t,
        py_getitem data "feed_last_ac_sent_time" = Some v
        /\ py_int v = Some t
        /\ Datetime.MIN_TIMESTAMP <= t <= Datetime.MAX_TIMESTAMP
        /\ e = Z.abs (Datetime.since_epoch_us now - t * 1000000) / 1000000)
  /\ (forall reason,
        get_sec_last_status now data = Failure reason ->
        reason = "ValueError: Last Status could not be parsed").
Proof.
  unfold get_sec_last_status, Datetime.utcfromtimestamp.
  destruct (py_getitem data "feed_last_ac_sent_time") as [v|] eqn:Hv; simpl.
  2: { split; [| congruence]. intros e.
       split; [discriminate | intros (v' & t' & ? & _); simplify_eq]. }
  destruct (py_int v) as [t|] eqn:Ht; simpl.
  2: { split; [| congruence]. intros e.
       split; [discriminate | intros (v' & t' & ? & ? & _); simplify_eq]. }
  destruct (Z.leb_spec Datetime.MIN_TIMESTAMP t) as [Hlo | Hlo]; simpl.
  2: { split; [| congruence]. intros e.
       split; [discriminate | intros (v' & t' & ? & ? & ? & _); simplify_eq; lia]. }
  destruct (Z.leb_spec t Datetime.MAX_TIMESTAMP) as [Hhi | Hhi]; simpl.
  2: { split; [| congruence]. intros e.
       split; [discriminate | intros (v' & t' & ? & ? & ? & _); simplify_eq; lia]. }
  split; [| discriminate]. intros e. unfold Datetime.sub. cbn [Datetime.since_epoch_us].
  rewrite abs_delta_seconds. split.
  - intros [= <-]. exists v, t. auto.
  - intros (v' & t' & ? & ? & _ & ->). now simplify_eq.
Qed.

(** X8.  The status step succeeds exactly when its three fields are
    there and the connection time converts to a timestamp [datetime]
    holds; it hands on the two status values as they are and the
    connection time as formatted text.  In every other case it returns
    one and the same reason. *)
Theorem status_result (data : json) :
  (forall st,
      get_status data = Success st <->
      py_getitem data "feed_status" = Some (feed_status st)
      /\ py_getitem data "last_rx_connect_status" = Some (last_rx_connect_status st)
      /\ exists field connected,
           py_getitem data "feed_last_connected_time" = Some field
           /\ py_int field = Some connected
           /\ Datetime.MIN_TIMESTAMP <= connected <= Datetime.MAX_TIMESTAMP
           /\ feed_last_connected_time st
              = Datetime.strftime (Datetime.Instant (connected * 1000000)))
  /\ (forall reason,
        get_status data = Failure reason ->
        reason = "ValueError: Status could not be parsed").
Proof.
  unfold get_status, Datetime.utcfromtimestamp.
  destruct (py_getitem data "feed_status") as [feed|] eqn:Hfeed; simpl.
  2: { split; [| congruence]. intros st.
       split; [discriminate | intros (? & _); simplify_eq]. }
  destruct (py_getitem data "last_rx_connect_status") as [rx|] eqn:Hrx; simpl.
  2: { split; [| congruence]. intros st.
       split; [discriminate | intros (_ & ? & _); simplify_eq]. }
  destruct (py_getitem data "feed_last_connected_time") as [field|] eqn:Hfield; simpl.
  2: { split; [| congruence]. intros st.
       split; [discriminate | intros (_ & _ & f & c & ? & _); simplify_eq]. }
  destruct (py_int field) as [connected|] eqn:Hint; simpl.
  2: { split; [| congruence]. intros st.
       split; [discriminate | intros (_ & _ & f & c & ? & ? & _); simplify_eq]. }
  destruct (Z.leb_spec Datetime.MIN_TIMESTAMP connected) as [Hlo | Hlo]; simpl.
  2: { split; [| congruence]. intros st.
       split; [discriminate
              | intros (_ & _ & f & c & ? & ? & ? & _); simplify_eq; lia]. }
  destruct (Z.leb_spec connected Datetime.MAX_TIMESTAMP) as [Hhi | Hhi]; simpl.
  2: { split; [| congruence]. intros st.
       split; [discriminate
              | intros (_ & _ & f & c & ? & ? & ? & _); simplify_eq; lia]. }
  split; [| discriminate]. intros st. split.
  - intros [= <-]. simpl. repeat split. exists field, connected. auto.
  - destruct st as [f r t]. simpl.
    intros (? & ? & f' & c & ? & ? & _ & ->). now simplify_eq.
Qed.

(** X9.  A timestamp sent as the decimal text of an integer is read like
    the integer itself, by the freshness step and by the status step. *)
Theorem text_timestamp_reads_as_integer (now : Datetime.datetime)
    (fields : gmap string json) (t : Z) :
  get_sec_last_status now
    (JObj (<["feed_last_ac_sent_time" := JStr (PyStr.str_int t)]> fields))
  = get_sec_last_status now (JObj (<["feed_last_ac_sent_time" := JInt t]> fields))
  /\ get_status (JObj (<["feed_last_connected_time" := JStr (PyStr.str_int t)]> fields))
     = get_status (JObj (<["feed_last_connected_time" := JInt t]> fields)).
Proof.
  split.
  - unfold get_sec_last_status. cbn [py_getitem]. rewrite !lookup_insert_eq.
    simpl. now rewrite of_string_str_int.
  - unfold get_status. cbn [py_getitem].
    rewrite !lookup_insert_eq, !lookup_insert_ne by discriminate.
    destruct (fields !! "feed_status"); [| reflexivity].
    destruct (fields !! "last_rx_connect_status"); [| reflexivity].
    simpl. now rewrite of_string_str_int.
Qed.

(** X10.  A decoded body that is no mapping (a list, a text, a number,
    [null]) is taken like a mapping without the upload time: the run
    writes the reason of the freshness step and leaves with 3. *)
Theorem body_is_no_mapping (argv : list cli_item) (now : Datetime.datetime)
    (args : Namespace) (data : json) :
  parses argv args ->
  run_monitor_check (monitor_path args) = Success data ->
  (forall fields, data <> JObj fields) ->
  check_fr24feed argv now
  = Outcome (line "ValueError: Last Status could not be parsed") STATE_UNKNOWN.
Proof.
  intros Hparse Hfetch Hdata.
  rewrite (run_after_parse argv now args Hparse), Hfetch.
  destruct data; try reflexivity. now destruct (Hdata fields).
Qed.

(** X11.  When the fetch raises, the reason written names the type of the
    exception and shows its arguments, and the run leaves with 3. *)
Theorem fetch_failure_names_exception (argv : list cli_item)
    (now : Datetime.datetime) (args : Namespace) (ex : exn) :
  parses argv args ->
  requests_get_json (monitor_path args) = inl ex ->
  check_fr24feed argv now
  = Outcome (line ("An exception of type " +:+ exn_name ex +:+ " occurred. Arguments:"
                     +:+ PyStr.nl +:+ exn_args ex))
            STATE_UNKNOWN
  /\ PyStr.contains (stdout (check_fr24feed argv now)) (exn_name ex)
  /\ PyStr.contains (stdout (check_fr24feed argv now)) (exn_args ex).
Proof.
  intros Hparse Hfetch. rewrite (run_after_parse argv now args Hparse).
  unfold run_monitor_check. rewrite Hfetch. cbn [stdout].
  split; [reflexivity |]. split.
  - apply contains_in_line.
  - exists ("An exception of type " +:+ exn_name ex +:+ " occurred. Arguments:"
              +:+ PyStr.nl), PyStr.nl.
    unfold line. now rewrite !append_assoc.
Qed.

(** *** The verdict as a function of the age *)

(** X12.  With a feed status that is text, an older upload never gets a
    lower state than a younger one, whatever the two thresholds are. *)
Theorem older_is_never_better (e e' : Z) (args : Namespace) (st : status)
    (text : string) :
  feed_status st = JStr text ->
  e <= e' ->
  (check_thresholds e args st "").2 <= (check_thresholds e' args st "").2.
Proof.
  intros Hst Hle. unfold check_thresholds. rewrite Hst. cbn [py_add_str].
  destruct (Z.gtb_spec e (CRIT args)), (Z.gtb_spec e' (CRIT args)),
    (Z.gtb_spec e (WARN args)), (Z.gtb_spec e' (WARN args));
    cbn [snd]; unfold STATE_OK, STATE_WARN, STATE_CRIT; lia.
Qed.

(** X13.  With the critical threshold at or below the warning threshold
    no age is ever a warning. *)
Theorem crossed_thresholds_never_warn (e : Z) (args : Namespace) (st : status) :
  CRIT args <= WARN args ->
  (check_thresholds e args st "").2 <> STATE_WARN.
Proof.
  intros Hcross. unfold check_thresholds.
  destruct (Z.gtb_spec e (CRIT args)); [discriminate |].
  destruct (Z.gtb_spec e (WARN args)); [lia |].
  destruct (py_add_str (feed_status st) " since "); discriminate.
Qed.

(** *** What an exit status tells *)

Lemma parse_args_cases (argv : list cli_item) :
  (exists args, parses argv args)
  \/ (exists out code, parse_args argv "" = Exits out code).
Proof.
  destruct (parse_args argv "") as [out args | out code] eqn:H.
  - left. exists args. now apply (parse_args_silent argv out).
  - right. now exists out, code.
Qed.

Lemma reaches_unique (argv : list cli_item) (now : Datetime.datetime)
    (args args' : Namespace) (e e' : Z) (m m' : metrics) (st st' : status) :
  reaches_thresholds argv now args e m st ->
  reaches_thresholds argv now args' e' m' st' ->
  args' = args /\ e' = e /\ m' = m /\ st' = st.
Proof.
  intros [Hp (r & Hf & He & Hm & Hs)] [Hp' (r' & Hf' & He' & Hm' & Hs')].
  unfold parses in *. assert (args' = args) as -> by congruence.
  assert (r' = r) as -> by congruence. repeat split; congruence.
Qed.

(** X14.  The exit status of a run is 0, 1, 2 or 3, and each of the first
    three tells what happened: 0 only when the run got to the threshold
    check, the age is above neither threshold and the feed status is
    text; 1 only when the age is above the warning and not above the
    critical threshold; 2 only when it is above the critical one.
    Everything else is 3. *)
Theorem exit_status_meaning (argv : list cli_item) (now : Datetime.datetime) :
  (exit_code (check_fr24feed argv now) = STATE_OK
   \/ exit_code (check_fr24feed argv now) = STATE_WARN
   \/ exit_code (check_fr24feed argv now) = STATE_CRIT
   \/ exit_code (check_fr24feed argv now) = STATE_UNKNOWN)
  /\ (exit_code (check_fr24feed argv now) = STATE_OK <->
      exists args e m st text,
        reaches_thresholds argv now args e m st
        /\ e <= CRIT args /\ e <= WARN args /\ feed_status st = JStr text)
  /\ (exit_code (check_fr24feed argv now) = STATE_WARN <->
      exists args e m st,
        reaches_thresholds argv now args e m st /\ e <= CRIT args /\ e > WARN args)
  /\ (exit_code (check_fr24feed argv now) = STATE_CRIT <->
      exists args e m st,
        reaches_thresholds argv now args e m st /\ e > CRIT args).
Proof.
  assert (Hno : exit_code (check_fr24feed argv now) = STATE_UNKNOWN ->
                (forall args e m st, ~ reaches_thresholds argv now args e m st) ->
                (exit_code (check_fr24feed argv now) = STATE_OK
                 \/ exit_code (check_fr24feed argv now) = STATE_WARN
                 \/ exit_code (check_fr24feed argv now) = STATE_CRIT
                 \/ exit_code (check_fr24feed argv now) = STATE_UNKNOWN)
                /\ (exit_code (check_fr24feed argv now) = STATE_OK <->
                    exists args e m st text,
                      reaches_thresholds argv now args e m st
                      /\ e <= CRIT args /\ e <= WARN args /\ feed_status st = JStr text)
                /\ (exit_code (check_fr24feed argv now) = STATE_WARN <->
                    exists args e m st,
                      reaches_thresholds argv now args e m st
                      /\ e <= CRIT args /\ e > WARN args)
                /\ (exit_code (check_fr24feed argv now) = STATE_CRIT <->
                    exists args e m st,
                      reaches_thresholds argv now args e m st /\ e > CRIT args)).
  { intros -> Hnone. split; [auto |].
    split; [| split]; (split; [discriminate |]).
    - intros (args & e & m & st & text & H & _). now destruct (Hnone args e m st).
    - intros (args & e & m & st & H & _). now destruct (Hnone args e m st).
    - intros (args & e & m & st & H & _). now destruct (Hnone args e m st). }
  destruct (parse_args_cases argv) as [[args Hparse] | (out & code & Hexit)].
  2: { apply Hno; [now rewrite (run_after_exit argv now out code Hexit) |].
       intros args e m st [Hp _]. unfold parses in Hp. congruence. }
  pose proof (run_after_parse argv now args Hparse) as Hrun.
  destruct (run_monitor_check (monitor_path args)) as [response|r0] eqn:Hfetch.
  2: { apply Hno; [now rewrite Hrun |].
       intros args' e m st [Hp (r & Hf & _)]. unfold parses in *.
       assert (args' = args) as -> by congruence. congruence. }
  assert (Hstep : forall args' e m st,
             reaches_thresholds argv now args' e m st ->
             args' = args /\ extracted now response e m st).
  { intros args' e m st [Hp (r & Hf & Hex)]. unfold parses in *.
    assert (args' = args) as -> by congruence.
    assert (r = response) as -> by congruence. auto. }
  destruct (get_sec_last_status now response) as [e|r1] eqn:He.
  2: { apply Hno; [now rewrite Hrun |].
       intros args' e m st H. apply Hstep in H as (_ & H & _). congruence. }
  destruct (get_metrics response) as [m|r2] eqn:Hm.
  2: { apply Hno; [now rewrite Hrun |].
       intros args' e' m st H. apply Hstep in H as (_ & _ & H & _). congruence. }
  destruct (get_status response) as [st|r3] eqn:Hst.
  2: { apply Hno; [now rewrite Hrun |].
       intros args' e' m' st H. apply Hstep in H as (_ & _ & _ & H). congruence. }
  assert (Hreach : reaches_thresholds argv now args e m st).
  { split; [assumption |]. exists response. repeat split; assumption. }
  assert (Huniq : forall args' e' m' st',
             reaches_thresholds argv now args' e' m' st' ->
             args' = args /\ e' = e /\ m' = m /\ st' = st)
    by (intros; now apply (reaches_unique argv now)).
  rewrite Hrun. cbn [exit_code].
  destruct (Z.gtb_spec e (CRIT args)) as [Hc | Hc].
  - rewrite check_thresholds_crit by lia. cbn [snd].
    split; [auto |]. split; [| split]; split; try discriminate; try (intros _; reflexivity).
    + intros (a & e' & m' & s' & text & H & ? & _).
      apply Huniq in H as (-> & -> & _). lia.
    + intros (a & e' & m' & s' & H & ? & _). apply Huniq in H as (-> & -> & _). lia.
    + intros _. exists args, e, m, st. split; [assumption | lia].
  - destruct (Z.gtb_spec e (WARN args)) as [Hw | Hw].
    + rewrite check_thresholds_warn by lia. cbn [snd].
      split; [auto |]. split; [| split]; split; try discriminate; try (intros _; reflexivity).
      * intros (a & e' & m' & s' & text & H & _ & ? & _).
        apply Huniq in H as (-> & -> & _). lia.
      * intros _. exists args, e, m, st. split; [assumption | split; lia].
      * intros (a & e' & m' & s' & H & ?). apply Huniq in H as (-> & -> & _). lia.
    + destruct (feed_status st) as [| | | |text| |] eqn:Hfs.
      5: { rewrite (check_thresholds_ok e args st text) by assumption. cbn [snd].
           split; [auto |]. split; [| split]; split; try discriminate; try (intros _; reflexivity).
           - intros _. exists args, e, m, st, text. auto.
           - intros (a & e' & m' & s' & H & _ & ?). apply Huniq in H as (-> & -> & _). lia.
           - intros (a & e' & m' & s' & H & ?). apply Huniq in H as (-> & -> & _). lia. }
      all: rewrite check_thresholds_raises by (try assumption; rewrite Hfs; discriminate).
      all: split; [auto |]; split; [| split]; split; try discriminate; try (intros _; reflexivity).
      all: try (intros (a & e' & m' & s' & text & H & _ & _ & Htext);
                apply Huniq in H as (_ & _ & _ & ->); congruence).
      all: try (intros (a & e' & m' & s' & H & _ & ?);
                apply Huniq in H as (-> & -> & _); lia).
      all: intros (a & e' & m' & s' & H & ?); apply Huniq in H as (-> & -> & _); lia.
Qed.

(** X15.  [main] never comes back to its caller: from whatever has been
    written so far it leaves through [sys.exit]. *)
Theorem main_leaves_by_exit (argv : list cli_item) (now : Datetime.datetime)
    (out : string) :
  exists out' code, main argv now out = Exits out' code.
Proof.
  unfold main, mbind, proc_bind, try_except_SystemExit.
  destruct (parse_args argv out) as [out0 args|]; [| now eexists _, _].
  destruct (run_monitor_check _) as [response|]; [| now eexists _, _].
  cbv beta iota delta [coe mret proc_ret].
  destruct (get_sec_last_status now response) as [e|]; [| now eexists _, _].
  destruct (get_metrics response) as [m|]; [| now eexists _, _].
  destruct (get_status response) as [st|]; [| now eexists _, _].
  destruct (check_thresholds e args st "") as [msg state].
  unfold oao, mbind, proc_bind. rewrite main_perfdata_nonempty. now eexists _, _.
Qed.

(** *** The helpers on their own *)

Lemma rstrip_append_blank (s t : string) :
  PyStr.rstrip t = "" -> PyStr.rstrip (s +:+ t) = PyStr.rstrip s.
Proof.
  intros Ht. induction s as [|a s IH]; simpl; [assumption |]. now rewrite IH.
Qed.

Lemma get_perfdata_flat (label : string) (value : json) (uom : option string)
    (warn crit min max : option Z) :
  get_perfdata label value uom warn crit min max
  = "'" +:+ (label +:+ "'=" +:+ py_format value +:+ default "" uom
               +:+ ";" +:+ from_option PyStr.str_int "" warn
               +:+ ";" +:+ from_option PyStr.str_int "" crit
               +:+ ";" +:+ from_option PyStr.str_int "" min)
        +:+ (";" +:+ from_option PyStr.str_int "" max +:+ " ").
Proof.
  unfold get_perfdata.
  destruct uom, warn, crit, min, max; cbn [default from_option];
    rewrite !append_assoc; reflexivity.
Qed.

(** X1.  [get_perfdata] writes ['label'=value[UOM];[warn];[crit];[min];[max]]
    and one blank, with nothing in the place of a bound that is [None];
    [strip] takes that final blank off and nothing else, whatever the
    label, the value and the bounds are. *)
Theorem perfdata_entry_format (label : string) (value : json) (uom : option string)
    (warn crit min max : option Z) :
  get_perfdata label value uom warn crit min max
  = "'" +:+ label +:+ "'=" +:+ py_format value +:+ default "" uom
      +:+ ";" +:+ from_option PyStr.str_int "" warn
      +:+ ";" +:+ from_option PyStr.str_int "" crit
      +:+ ";" +:+ from_option PyStr.str_int "" min
      +:+ ";" +:+ from_option PyStr.str_int "" max +:+ " "
  /\ PyStr.strip (get_perfdata label value uom warn crit min max) +:+ " "
     = get_perfdata label value uom warn crit min max.
Proof.
  split.
  - rewrite get_perfdata_flat, !append_assoc. reflexivity.
  - rewrite get_perfdata_flat.
    assert (Htail : PyStr.rstrip (";" +:+ from_option PyStr.str_int "" max +:+ " ")
                    = ";" +:+ from_option PyStr.str_int "" max).
    { destruct max as [m|]; [| reflexivity]. cbn [from_option].
      change (";" +:+ PyStr.str_int m +:+ " ") with ((";" +:+ PyStr.str_int m) +:+ " ").
      rewrite rstrip_append_blank by reflexivity.
      apply (tight_append ";" _ (tight_str_int m)). }
    rewrite strip_quoted; rewrite Htail; [| discriminate].
    rewrite !append_assoc. reflexivity.
Qed.

(** X2.  [oao] writes one line and leaves: the stripped message alone
    when the performance data are the empty string, otherwise the
    stripped message, a bar and the stripped performance data, so that
    performance data of blanks leave a bare bar.  The exit status is
    [state], or 0 when [always_ok] is set; the line is the same either
    way. *)
Theorem oao_line_and_status (msg : string) (state : Z) (perfdata : string)
    (always_ok : bool) :
  exit_code (execute (oao (A := unit) msg state perfdata always_ok))
  = (if always_ok then 0 else state)
  /\ stdout (execute (oao (A := unit) msg state perfdata always_ok))
     = stdout (execute (oao (A := unit) msg STATE_OK perfdata false))
  /\ (perfdata = "" ->
      stdout (execute (oao (A := unit) msg state perfdata always_ok))
      = line (PyStr.strip msg))
  /\ (perfdata <> "" ->
      stdout (execute (oao (A := unit) msg state perfdata always_ok))
      = line (PyStr.strip msg +:+ "|" +:+ PyStr.strip perfdata))
  /\ (perfdata <> "" -> PyStr.strip perfdata = "" ->
      stdout (execute (oao (A := unit) msg state perfdata always_ok))
      = line (PyStr.strip msg +:+ "|")).
Proof.
  unfold execute, oao, mbind, proc_bind.
  destruct (String.eqb_spec perfdata "") as [-> | Hne]; cbn [negb].
  - repeat split; try (now destruct always_ok); intros H; now destruct H.
  - repeat split; try (now destruct always_ok); try discriminate.
    intros _ Hblank. rewrite Hblank. now destruct always_ok.
Qed.


End Script.

(** ** The builtins on examples *)

Example strip_both_ends : PyStr.strip (" a b " +:+ PyStr.nl) = "a b".
Proof. reflexivity. Qed.

Example int_of_padded_text : PyInt.of_string " -1_000 " = Some (-1000).
Proof. reflexivity. Qed.

Example int_of_doubled_underscore : PyInt.of_string "1__0" = None.
Proof. reflexivity. Qed.

Example int_of_blank_text : PyInt.of_string " " = None.
Proof. reflexivity. Qed.

Example int_of_file_separator : PyInt.of_string (String "028"%char "5") = None.
Proof. reflexivity. Qed.

Example strftime_of_sample :
  Datetime.strftime (Datetime.Instant (1647520771 * 1000000)) = "2022-03-17 12:39:31".
Proof. vm_compute. reflexivity. Qed.

Example strftime_of_leap_day :
  Datetime.strftime (Datetime.Instant (951782400 * 1000000)) = "2000-02-29 00:00:00".
Proof. vm_compute. reflexivity. Qed.

Example strftime_of_last_second :
  Datetime.strftime (Datetime.Instant (Datetime.MAX_TIMESTAMP * 1000000))
  = "9999-12-31 23:59:59".
Proof. vm_compute. reflexivity. Qed.

Example delta_before_is_negative_days :
  Datetime.sub (Datetime.Instant 500000) (Datetime.Instant 1000000)
  = Datetime.Delta (-1) 86399 500000.
Proof. reflexivity. Qed.

(** ** The sample runs *)

#[local] Ltac by_running := vm_compute; reflexivity.

Lemma sample_reaches (age : Z) (argv : list cli_item) (args : Namespace) :
  parses Sample.prog Sample.help_text argv args ->
  get_sec_last_status Sample.now (Sample.monitor age) = Success age ->
  reaches_thresholds Sample.prog Sample.help_text (Sample.serve (Sample.monitor age))
    argv Sample.now args age Sample.counters Sample.connection.
Proof.
  intros Hparse Hage. split; [assumption |].
  exists (Sample.monitor age). split; [reflexivity |].
  split; [assumption |]. split; by_running.
Qed.

(** The reference scenario: the last upload 100 seconds ago, default
    thresholds. *)
Example healthy_run :
  check_fr24feed Sample.repr Sample.prog Sample.help_text
    (Sample.serve (Sample.monitor 100)) Sample.argv Sample.now
  = Outcome
      (line ("Feeder: OK - 100s since last upload" +:+ PyStr.nl
               +:+ "Status: CONNECTED since 2022-03-17 12:31:11"
               +:+ "|'adsb_tracked'=5;;;0; 'non_adsb_tracked'=2;;;0; 'sum_tracked'=7;;;0;"))
      0.
Proof. by_running. Qed.

Example critical_run :
  check_fr24feed Sample.repr Sample.prog Sample.help_text
    (Sample.serve (Sample.monitor 4000)) Sample.argv Sample.now
  = Outcome
      (line ("CRIT threshold reached: 4000"
               +:+ "|'adsb_tracked'=5;;;0; 'non_adsb_tracked'=2;;;0; 'sum_tracked'=7;;;0;"))
      2.
Proof. by_running. Qed.

Example refused_run :
  check_fr24feed Sample.repr Sample.prog Sample.help_text Sample.refuse
    Sample.argv Sample.now
  = Outcome
      (line ("An exception of type ConnectionError occurred. Arguments:" +:+ PyStr.nl
               +:+ "('Connection refused',)"))
      3.
Proof. by_running. Qed.

(** *** C1 *)

(** An upload 4000 seconds old against the default thresholds. *)
Lemma verdict_by_thresholds_witness :
  reaches_thresholds Sample.prog Sample.help_text (Sample.serve (Sample.monitor 4000))
    Sample.argv Sample.now Sample.args 4000 Sample.counters Sample.connection
  /\ exit_code (check_fr24feed Sample.repr Sample.prog Sample.help_text
                  (Sample.serve (Sample.monitor 4000)) Sample.argv Sample.now)
     = STATE_CRIT.
Proof.
  assert (H : reaches_thresholds Sample.prog Sample.help_text
                (Sample.serve (Sample.monitor 4000)) Sample.argv Sample.now Sample.args
                4000 Sample.counters Sample.connection)
    by (apply sample_reaches; by_running).
  split; [exact H |].
  pose proof (verdict_by_thresholds Sample.repr _ _ _ _ _ _ _ _ _ H) as T.
  cbv zeta in T. destruct T as [Hcrit _].
  apply Hcrit. reflexivity.
Defined.

(** As stated, C1 makes [e = w] healthy, and every age above neither
    threshold healthy.  With the warning threshold at 700 above the
    critical one at 600, an upload 700 seconds old is critical; and with a
    number as feed status, an upload 100 seconds old ends in state 3. *)
Lemma verdict_by_thresholds_counterexample :
  (parses Sample.prog Sample.help_text Sample.argv_crossed Sample.args_crossed
   /\ get_sec_last_status Sample.now (Sample.monitor 700) = Success (WARN Sample.args_crossed)
   /\ exit_code (check_fr24feed Sample.repr Sample.prog Sample.help_text
                   (Sample.serve (Sample.monitor 700)) Sample.argv_crossed Sample.now)
      = STATE_CRIT)
  /\ (get_sec_last_status Sample.now Sample.numeric_status = Success 100
      /\ 100 <= WARN Sample.args
      /\ check_fr24feed Sample.repr Sample.prog Sample.help_text
           (Sample.serve Sample.numeric_status) Sample.argv Sample.now
         = Outcome
             (line ("An exception of type TypeError occurred. Arguments:" +:+ PyStr.nl
                      +:+ "(" +:+ PyStr.dq
                      +:+ "unsupported operand type(s) for +: 'int' and 'str'"
                      +:+ PyStr.dq +:+ ",)"
                      +:+ "|'adsb_tracked'=5;;;0; 'non_adsb_tracked'=2;;;0; 'sum_tracked'=7;;;0;"))
             STATE_UNKNOWN).
Proof.
  split; [split; [| split] | split; [| split]]; try by_running.
  vm_compute. discriminate.
Qed.

(** *** C2 *)

(** [--host 10.0.0.5 --always-ok] and an upload 4000 seconds old: the
    flag is in the namespace and the exit status is 2. *)
Lemma always_ok_exit_status_witness :
  reaches_thresholds Sample.prog Sample.help_text (Sample.serve (Sample.monitor 4000))
    Sample.argv_always_ok Sample.now Sample.args_always_ok 4000
    Sample.counters Sample.connection
  /\ ALWAYS_OK Sample.args_always_ok = true
  /\ exit_code (check_fr24feed Sample.repr Sample.prog Sample.help_text
                  (Sample.serve (Sample.monitor 4000)) Sample.argv_always_ok Sample.now)
     = STATE_CRIT.
Proof.
  assert (H : reaches_thresholds Sample.prog Sample.help_text
                (Sample.serve (Sample.monitor 4000)) Sample.argv_always_ok Sample.now
                Sample.args_always_ok 4000 Sample.counters Sample.connection)
    by (apply sample_reaches; by_running).
  split; [exact H |]. split; [reflexivity |].
  apply (proj1 (proj2 (always_ok_exit_status Sample.repr _ _ _ _ _ _ _ _ _ H eq_refl))).
  reflexivity.
Defined.

(** *** C3 *)

(** An answer with neither an upload time nor a connection time: the line
    is the one of the freshness step. *)
Lemma first_failure_aborts_witness :
  parses Sample.prog Sample.help_text Sample.argv Sample.args
  /\ check_fr24feed Sample.repr Sample.prog Sample.help_text
       (Sample.serve Sample.only_sum) Sample.argv Sample.now
     = Outcome (line "ValueError: Last Status could not be parsed") 3.
Proof.
  assert (H : parses Sample.prog Sample.help_text Sample.argv Sample.args)
    by by_running.
  split; [exact H |].
  apply (proj1 (proj2 (first_failure_aborts Sample.repr Sample.prog Sample.help_text
                         (Sample.serve Sample.only_sum) Sample.argv Sample.now
                         Sample.args H))
           Sample.only_sum "ValueError: Last Status could not be parsed");
    by_running.
Defined.

(** *** C4 *)

(** An upload stamped 100 seconds after the sample time: the age is 99,
    the whole seconds of the 99.75 between the two. *)
Lemma elapsed_is_absolute_difference_witness :
  Sample.fields (JInt (1647520771 + 100)) !! "feed_last_ac_sent_time"
    = Some (JInt 1647520871)
  /\ py_int (JInt 1647520871) = Some 1647520871
  /\ Datetime.MIN_TIMESTAMP <= 1647520871 <= Datetime.MAX_TIMESTAMP
  /\ get_sec_last_status Sample.now (JObj (Sample.fields (JInt (1647520771 + 100))))
     = Success 99.
Proof.
  assert (Hfield : Sample.fields (JInt (1647520771 + 100)) !! "feed_last_ac_sent_time"
                   = Some (JInt 1647520871)) by by_running.
  assert (Hrange : Datetime.MIN_TIMESTAMP <= 1647520871 <= Datetime.MAX_TIMESTAMP)
    by (vm_compute; split; discriminate).
  split; [exact Hfield |]. split; [reflexivity |]. split; [exact Hrange |].
  exact (proj1 (proj1 (elapsed_is_absolute_difference Sample.now _ _ _ Hfield eq_refl)
                  Hrange)).
Defined.

(** As stated, C4 promises the age for every integer timestamp.  The
    first second of the year 10000 is an integer [int()] returns, and the
    freshness step fails on it. *)
Lemma elapsed_is_absolute_difference_counterexample :
  py_int (JInt Sample.year_10000) = Some Sample.year_10000
  /\ get_sec_last_status Sample.now (JObj (Sample.fields (JInt Sample.year_10000)))
     = Failure "ValueError: Last Status could not be parsed".
Proof. split; by_running. Qed.

(** *** C5 *)

(** The answer that only has the sum of the counters fails all three
    steps. *)
Lemma required_fields_witness :
  py_getitem Sample.only_sum "feed_last_ac_sent_time" = None
  /\ get_sec_last_status Sample.now Sample.only_sum
     = Failure "ValueError: Last Status could not be parsed"
  /\ get_metrics Sample.only_sum = Failure "ValueError: Metrics could not be parsed"
  /\ get_status Sample.only_sum = Failure "ValueError: Status could not be parsed".
Proof.
  pose proof (required_fields Sample.now Sample.only_sum)
    as (Hfresh & _ & Hmetrics & Hstatus & _).
  split; [by_running |]. split; [apply Hfresh; by_running |].
  split; [apply Hmetrics; left; by_running | apply Hstatus; left; by_running].
Defined.

(** As stated, C5 makes a counter that is no number fail the metrics
    step.  With the three counters in words the step succeeds and hands
    the words on. *)
Lemma required_fields_counterexample :
  py_int (JStr "seven") = None
  /\ get_metrics Sample.worded_counters
     = Success (Metrics (JStr "five") (JStr "two") (JStr "seven")).
Proof. split; by_running. Qed.

(** *** C6 *)

(** The sample answer without [feed_num_ac_tracked]. *)
Lemma missing_sum_tracked_witness :
  parses Sample.prog Sample.help_text Sample.argv Sample.args
  /\ delete "feed_num_ac_tracked" (Sample.fields (JInt 1647520671))
       !! "feed_num_ac_tracked" = None
  /\ check_fr24feed Sample.repr Sample.prog Sample.help_text
       (Sample.serve
          (JObj (delete "feed_num_ac_tracked" (Sample.fields (JInt 1647520671)))))
       Sample.argv Sample.now
     = Outcome (line "ValueError: Metrics could not be parsed") STATE_UNKNOWN.
Proof.
  assert (Hparse : parses Sample.prog Sample.help_text Sample.argv Sample.args)
    by by_running.
  assert (Hnone : delete "feed_num_ac_tracked" (Sample.fields (JInt 1647520671))
                    !! "feed_num_ac_tracked" = None) by by_running.
  split; [exact Hparse |]. split; [exact Hnone |].
  apply (proj1 (proj2 (missing_sum_tracked Sample.repr Sample.prog Sample.help_text
                         (Sample.serve
                            (JObj (delete "feed_num_ac_tracked"
                                     (Sample.fields (JInt 1647520671)))))
                         Sample.argv Sample.now Sample.args _ Hparse eq_refl Hnone))
           100).
  by_running.
Defined.

(** As stated, C6 promises the metrics line for every mapping without the
    key.  The empty mapping lacks it, and the line is the one of the
    freshness step, which runs first. *)
Lemma missing_sum_tracked_counterexample :
  (∅ : gmap string json) !! "feed_num_ac_tracked" = None
  /\ check_fr24feed Sample.repr Sample.prog Sample.help_text
       (Sample.serve (JObj ∅)) Sample.argv Sample.now
     = Outcome (line "ValueError: Last Status could not be parsed") STATE_UNKNOWN.
Proof. split; by_running. Qed.

(** *** C8 *)

(** An empty command line, and one with a threshold that is no number. *)
Lemma parser_exit_is_unknown_witness :
  existsb gives_host [] = false
  /\ exit_code (check_fr24feed Sample.repr Sample.prog Sample.help_text
                  (Sample.serve (Sample.monitor 100)) [] Sample.now)
     = STATE_UNKNOWN
  /\ existsb malformed [Sample.host; Given OptCritical (Some "soon")] = true
  /\ exit_code (check_fr24feed Sample.repr Sample.prog Sample.help_text
                  (Sample.serve (Sample.monitor 100))
                  [Sample.host; Given OptCritical (Some "soon")] Sample.now)
     = STATE_UNKNOWN.
Proof.
  split; [reflexivity |]. split.
  - apply (proj2 (parser_exit_is_unknown Sample.repr Sample.prog Sample.help_text
                    (Sample.serve (Sample.monitor 100)) [] Sample.now)).
    right. reflexivity.
  - split; [reflexivity |].
    apply (proj2 (parser_exit_is_unknown Sample.repr Sample.prog Sample.help_text
                    (Sample.serve (Sample.monitor 100))
                    [Sample.host; Given OptCritical (Some "soon")] Sample.now)).
    left. reflexivity.
Defined.

(** *** C9 *)

(** The warning branch: an upload 700 seconds old. *)
Lemma perfdata_in_every_branch_witness :
  reaches_thresholds Sample.prog Sample.help_text (Sample.serve (Sample.monitor 700))
    Sample.argv Sample.now Sample.args 700 Sample.counters Sample.connection
  /\ stdout (check_fr24feed Sample.repr Sample.prog Sample.help_text
               (Sample.serve (Sample.monitor 700)) Sample.argv Sample.now)
     = line ("WARN threshold reached: 700"
               +:+ "|'adsb_tracked'=5;;;0; 'non_adsb_tracked'=2;;;0; 'sum_tracked'=7;;;0;")
  /\ get_perfdata Sample.repr "adsb_tracked" (JInt 5) None None None (Some 0) None
     = "'adsb_tracked'=5;;;0; ".
Proof.
  assert (H : reaches_thresholds Sample.prog Sample.help_text
                (Sample.serve (Sample.monitor 700)) Sample.argv Sample.now Sample.args
                700 Sample.counters Sample.connection)
    by (apply sample_reaches; by_running).
  pose proof (perfdata_in_every_branch Sample.repr _ _ _ _ _ _ _ _ _ H)
    as (Hout & _ & Hentry & _).
  split; [exact H |]. split.
  - rewrite Hout. by_running.
  - rewrite Hentry. by_running.
Defined.

(** *** C10 *)

(** An upload 700 seconds old from a feeder whose connection time is no
    number: no warning is written, the run ends with the status line. *)
Lemma status_only_in_healthy_message_witness :
  parses Sample.prog Sample.help_text Sample.argv Sample.args
  /\ get_sec_last_status Sample.now
       (JObj (<["feed_last_connected_time" := JStr "never"]>
                (Sample.fields (JInt (1647520771 - 700)))))
     = Success 700
  /\ check_fr24feed Sample.repr Sample.prog Sample.help_text
       (Sample.serve
          (JObj (<["feed_last_connected_time" := JStr "never"]>
                   (Sample.fields (JInt (1647520771 - 700))))))
       Sample.argv Sample.now
     = Outcome (line "ValueError: Status could not be parsed") STATE_UNKNOWN.
Proof.
  assert (Hparse : parses Sample.prog Sample.help_text Sample.argv Sample.args)
    by by_running.
  assert (Hage : get_sec_last_status Sample.now
                   (JObj (<["feed_last_connected_time" := JStr "never"]>
                            (Sample.fields (JInt (1647520771 - 700)))))
                 = Success 700) by by_running.
  split; [exact Hparse |]. split; [exact Hage |].
  apply (proj1 (status_only_in_healthy_message Sample.repr Sample.prog Sample.help_text
                  (Sample.serve
                     (JObj (<["feed_last_connected_time" := JStr "never"]>
                              (Sample.fields (JInt (1647520771 - 700))))))
                  Sample.argv Sample.now Sample.args _ 700 Sample.counters
                  Hparse eq_refl Hage ltac:(by_running))).
  by_running.
Defined.

(** ** Two worlds *)

(** X16.  A run asks the world for one address only,
    [http://HOST:PORT/monitor.json] with the last [--host] and the last
    [--port] of the command line (8754 without one): two worlds that
    answer alike there give the same run, and without a value for
    [--host] the run is the same in every world. *)
Theorem only_the_monitor_is_asked (repr : json -> string) (prog help_text : string)
    (world world' : string -> exn + json) (argv : list cli_item)
    (now : Datetime.datetime) :
  (forall h,
      last_arg OptHost argv = Some h ->
      world ("http://" +:+ h +:+ ":" +:+ default DEFAULT_PORT (last_arg OptPort argv)
               +:+ "/monitor.json")
      = world' ("http://" +:+ h +:+ ":" +:+ default DEFAULT_PORT (last_arg OptPort argv)
                  +:+ "/monitor.json")) ->
  check_fr24feed repr prog help_text world argv now
  = check_fr24feed repr prog help_text world' argv now.
Proof.
  intros Hsame.
  destruct (parse_args_cases prog help_text argv) as [[args Hparse] | (out & code & Hexit)].
  - rewrite (run_after_parse repr prog help_text world argv now args Hparse).
    rewrite (run_after_parse repr prog help_text world' argv now args Hparse).
    apply take_actions_returns in Hparse as (_ & _ & Hh & Hp & _).
    cbn [HOST_PORT] in Hp.
    destruct (last_arg OptHost argv) as [h|] eqn:Hhost; [| discriminate].
    injection Hh as Hh. specialize (Hsame h eq_refl).
    unfold run_monitor_check, monitor_path. rewrite Hh, Hp, Hsame. reflexivity.
  - rewrite (run_after_exit repr prog help_text world argv now out code Hexit).
    now rewrite (run_after_exit repr prog help_text world' argv now out code Hexit).
Qed.

Lemma check_thresholds_ignores_rx (e : Z) (args : Namespace) (feed v v' : json)
    (time msg : string) :
  check_thresholds e args (Status feed v time) msg
  = check_thresholds e args (Status feed v' time) msg.
Proof. reflexivity. Qed.

(** X17.  The value of [last_rx_connect_status] has to be there and is
    never reported: two answers that differ in it alone give the same
    line and the same exit status. *)
Theorem rx_status_is_not_reported (repr : json -> string) (prog help_text : string)
    (world world' : string -> exn + json) (argv : list cli_item)
    (now : Datetime.datetime) (args : Namespace) (fields : gmap string json)
    (v v' : json) :
  parses prog help_text argv args ->
  world (monitor_path args) = inr (JObj (<["last_rx_connect_status" := v]> fields)) ->
  world' (monitor_path args) = inr (JObj (<["last_rx_connect_status" := v']> fields)) ->
  check_fr24feed repr prog help_text world argv now
  = check_fr24feed repr prog help_text world' argv now.
Proof.
  intros Hparse Hw Hw'.
  rewrite (run_after_parse repr prog help_text world argv now args Hparse).
  rewrite (run_after_parse repr prog help_text world' argv now args Hparse).
  unfold run_monitor_check. rewrite Hw, Hw'.
  unfold get_sec_last_status, get_metrics, get_status. cbn [py_getitem].
  rewrite !lookup_insert_eq, !lookup_insert_ne by discriminate.
  destruct (_ ≫= _) as [e|]; [| reflexivity].
  destruct (fields !! "feed_num_ac_adsb_tracked") as [a|]; [| reflexivity].
  destruct (fields !! "feed_num_ac_non_adsb_tracked") as [b|]; [| reflexivity].
  destruct (fields !! "feed_num_ac_tracked") as [c|]; [| reflexivity].
  destruct (fields !! "feed_status") as [feed|]; [| reflexivity].
  destruct (fields !! "feed_last_connected_time") as [field|]; [| reflexivity].
  cbn [mbind option_bind].
  destruct (py_int field) as [connected|]; [| reflexivity].
  cbn [mbind option_bind].
  destruct (Datetime.utcfromtimestamp connected) as [dt|]; [| reflexivity].
  cbn [mbind option_bind].
  now rewrite (check_thresholds_ignores_rx e args feed v v').
Qed.

(** ** The added properties on the samples *)

Lemma parse_args_namespace_witness :
  parses Sample.prog Sample.help_text Sample.argv_repeated Sample.args_repeated
  /\ last_arg OptHost Sample.argv_repeated = Some "10.0.0.5"
  /\ HOST_PORT Sample.args_repeated = "9000"
  /\ ALWAYS_OK Sample.args_repeated = true.
Proof.
  assert (H : parses Sample.prog Sample.help_text Sample.argv_repeated
                Sample.args_repeated) by by_running.
  pose proof (parse_args_namespace Sample.prog Sample.help_text _ _ H)
    as (Hhost & Hport & _ & _ & Hflag).
  split; [exact H |]. split; [exact Hhost |]. split; [| reflexivity].
  rewrite Hport. by_running.
Defined.

Lemma parse_args_exit_codes_witness :
  parse_args Sample.prog Sample.help_text [Given OptCritical (Some "soon")] ""
    = Exits "" 2
  /\ ((2 = 2 /\ "" = "")
      \/ (2 = 0 /\ existsb asks_to_leave [Given OptCritical (Some "soon")] = true
          /\ ("" = Sample.help_text
              \/ "" = line (Sample.prog +:+ ": v2022031701 by Andreas Bucher")))).
Proof.
  assert (H : parse_args Sample.prog Sample.help_text
                [Given OptCritical (Some "soon")] "" = Exits "" 2) by by_running.
  split; [exact H |].
  exact (parse_args_exit_codes Sample.prog Sample.help_text _ _ _ H).
Defined.


Lemma body_is_no_mapping_witness :
  parses Sample.prog Sample.help_text Sample.argv Sample.args
  /\ check_fr24feed Sample.repr Sample.prog Sample.help_text
       (Sample.serve (JArr [])) Sample.argv Sample.now
     = Outcome (line "ValueError: Last Status could not be parsed") STATE_UNKNOWN.
Proof.
  assert (H : parses Sample.prog Sample.help_text Sample.argv Sample.args)
    by by_running.
  split; [exact H |].
  apply (body_is_no_mapping Sample.repr Sample.prog Sample.help_text
           (Sample.serve (JArr [])) Sample.argv Sample.now Sample.args (JArr []) H eq_refl).
  discriminate.
Defined.

Lemma fetch_failure_names_exception_witness :
  parses Sample.prog Sample.help_text Sample.argv Sample.args
  /\ Sample.refuse (monitor_path Sample.args)
     = inl (Exn "ConnectionError" "('Connection refused',)")
  /\ PyStr.contains
       (stdout (check_fr24feed Sample.repr Sample.prog Sample.help_text Sample.refuse
                  Sample.argv Sample.now))
       "ConnectionError".
Proof.
  assert (H : parses Sample.prog Sample.help_text Sample.argv Sample.args)
    by by_running.
  split; [exact H |]. split; [reflexivity |].
  exact (proj1 (proj2 (fetch_failure_names_exception Sample.repr Sample.prog
                         Sample.help_text Sample.refuse Sample.argv Sample.now
                         Sample.args _ H eq_refl))).
Defined.

Lemma older_is_never_better_witness :
  feed_status Sample.connection = JStr "CONNECTED"
  /\ 100 <= 4000
  /\ (check_thresholds 100 Sample.args Sample.connection "").2
     <= (check_thresholds 4000 Sample.args Sample.connection "").2.
Proof.
  split; [reflexivity |]. split; [discriminate |].
  apply (older_is_never_better 100 4000 Sample.args Sample.connection "CONNECTED");
    [reflexivity | discriminate].
Defined.

Lemma crossed_thresholds_never_warn_witness :
  CRIT Sample.args_crossed <= WARN Sample.args_crossed
  /\ (check_thresholds 650 Sample.args_crossed Sample.connection "").2 <> STATE_WARN.
Proof.
  split; [discriminate |].
  apply (crossed_thresholds_never_warn 650 Sample.args_crossed Sample.connection).
  discriminate.
Defined.

Lemma only_the_monitor_is_asked_witness :
  check_fr24feed Sample.repr Sample.prog Sample.help_text
    (Sample.serve (Sample.monitor 100)) Sample.argv Sample.now
  = check_fr24feed Sample.repr Sample.prog Sample.help_text
      (Sample.serve_at_monitor (Sample.monitor 100)) Sample.argv Sample.now.
Proof.
  apply only_the_monitor_is_asked. intros h Hh.
  assert (h = "10.0.0.5") as -> by (vm_compute in Hh; congruence).
  reflexivity.
Defined.

Lemma rx_status_is_not_reported_witness :
  parses Sample.prog Sample.help_text Sample.argv Sample.args
  /\ check_fr24feed Sample.repr Sample.prog Sample.help_text
       (Sample.serve
          (JObj (<["last_rx_connect_status" := JStr "DISCONNECTED"]>
                   (Sample.fields (JInt 1647520671)))))
       Sample.argv Sample.now
     = check_fr24feed Sample.repr Sample.prog Sample.help_text
         (Sample.serve
            (JObj (<["last_rx_connect_status" := JNull]>
                     (Sample.fields (JInt 1647520671)))))
         Sample.argv Sample.now.
Proof.
  assert (H : parses Sample.prog Sample.help_text Sample.argv Sample.args)
    by by_running.
  split; [exact H |].
  exact (rx_status_is_not_reported Sample.repr Sample.prog Sample.help_text _ _
           Sample.argv Sample.now Sample.args (Sample.fields (JInt 1647520671))
           (JStr "DISCONNECTED") JNull H eq_refl eq_refl).
Defined.
